(** * Boot-time image-source resolution of the STM32MP1 BL2

    A shallow embedding of [plat/st/stm32mp1/bl2_io_storage.c]: the static
    IO policy table, the three availability checks, [print_boot_device],
    [stm32mp1_io_setup] and [plat_get_image_source].

    The file is written against the IO framework, the SDMMC2 driver and the
    GPT parser; those collaborators are taken as an abstract backend acting
    on a world of their own.  Platform constants that the file takes from
    headers ([boot_api.h], [platform_def.h], the image identifiers, the
    [assert] build switch) are fields of a [platform_def]. *)

From stdpp Require Import base numbers list gmap strings.

Local Open Scope Z_scope.

(** ** Data as the C file has it *)

(** [uintptr_t], [int] and the unsigned fields of the boot context are
    integers ([Z]).  The file does no arithmetic on them; it copies them and
    compares them with constants.  One copy changes the integer type, the
    assignment [part->part_offset = entry->start] of line 263: it is written
    with the reduction that the conversion to the narrower unsigned type
    makes ([to_uintptr] below). *)

(** The three [static uintptr_t] device handles; a [uintptr_t *] held by the
    policy table points to one of them. *)
Inductive handle_slot :=
  | dummy_dev_handle_p
  | image_dev_handle_p
  | storage_dev_handle_p.

(** The three [static const io_dev_connector_t *] variables. *)
Inductive connector_slot :=
  | dummy_dev_con_p
  | mmc_dev_con_p
  | stm32image_dev_con_p.

(** The four [register_io_dev_*] entry points of the IO framework. *)
Inductive io_dev_type := IO_DUMMY | IO_BLOCK | IO_MMC | IO_STM32IMAGE.

(** The two values of [enum mmc_device_type] the file assigns. *)
Inductive mmc_device_type := MMC_IS_EMMC | MMC_IS_SD.

Global Instance handle_slot_eq_dec : EqDecision handle_slot.
Proof. solve_decision. Defined.
Global Instance connector_slot_eq_dec : EqDecision connector_slot.
Proof. solve_decision. Defined.
Global Instance io_dev_type_eq_dec : EqDecision io_dev_type.
Proof. solve_decision. Defined.
Global Instance mmc_device_type_eq_dec : EqDecision mmc_device_type.
Proof. solve_decision. Defined.

(** The fields of [boot_api_context_t] the file reads. *)
Record boot_api_context_t := Build_boot_context {
  boot_interface_selected : Z;
  boot_interface_instance : Z;
  boot_partition_used_toboot : Z
}.

(** Modelled from the spec: [partition_entry_t] is declared in
    [drivers/partition/partition.h], which is not part of the sources at
    hand.  Following the data model of the specification, a partition entry
    is [{name, start offset, size}]; the two numbers are unsigned and
    address the whole device, whose size is a 64-bit quantity in the
    specification, and are not bounded here. *)
Record partition_entry_t := Build_partition_entry {
  entry_start : Z;
  entry_length : Z;
  entry_name : string
}.

(** The fields of [struct stm32image_part_info] and of
    [struct stm32image_device_info] that the file names; the structures
    are declared in [drivers/st/io_stm32image.h], which is not part of the
    sources at hand.  [part_offset] is a [uintptr_t]: an unsigned integer as
    wide as a pointer of the platform ([UINTPTR_WIDTH], a parameter; 32 on
    the STM32MP1, whose BL2 runs in AArch32), so the start of a partition
    entry does not always fit. *)
Record stm32image_part_info := Build_part_info {
  name : string;
  binary_type : Z;
  part_offset : Z;
  bkp_offset : Z
}.

Record stm32image_device_info := Build_device_info {
  part_info : list stm32image_part_info;
  device_size : Z;
  lba_size : Z
}.

Record mmc_device_info := Build_mmc_device_info {
  mmc_dev_type : mmc_device_type
}.

(** [struct stm32_sdmmc2_params] after the [memset]: every field but the two
    the file assigns is zero. *)
Record stm32_sdmmc2_params := Build_sdmmc2_params {
  reg_base : Z;
  device_info : mmc_device_info
}.

Global Instance partition_entry_eq_dec : EqDecision partition_entry_t.
Proof. solve_decision. Defined.
Global Instance part_info_eq_dec : EqDecision stm32image_part_info.
Proof. solve_decision. Defined.
Global Instance mmc_device_info_eq_dec : EqDecision mmc_device_info.
Proof. solve_decision. Defined.
Global Instance sdmmc2_params_eq_dec : EqDecision stm32_sdmmc2_params.
Proof. solve_decision. Defined.

(** ** What an execution can be seen to do *)

Inductive log_level := LOG_INFO | LOG_WARN | LOG_ERROR.

Inductive log_arg := ArgInt (z : Z) | ArgStr (s : string).

(** One event per macro invocation or call into a collaborator, with the
    arguments passed and what came back. *)
Inductive event :=
  | Log (lvl : log_level) (fmt : string) (args : list log_arg)
  | Call_dmbsy
  | Call_register_io_dev (d : io_dev_type) (p : connector_slot) (rc con : Z)
  | Call_io_dev_open (dev_con dev_spec : Z) (p : handle_slot) (rc h : Z)
  | Call_io_dev_close (h rc : Z)
  | Call_io_dev_init (h init_params rc : Z)
  | Call_stm32_sdmmc2_mmc_init (params : stm32_sdmmc2_params) (rc : Z)
  | Call_partition_init (image_id : nat)
  | Call_get_partition_entry (nm : string) (entry : option partition_entry_t)
  | Call_stm32_sdmmc2_mmc_get_device_size (size : Z).

Global Instance log_level_eq_dec : EqDecision log_level.
Proof. solve_decision. Defined.
Global Instance log_arg_eq_dec : EqDecision log_arg.
Proof. solve_decision. Defined.
Global Instance event_eq_dec : EqDecision event.
Proof. solve_decision. Defined.

(** ** Build-time constants *)

Class platform_def := Build_platform_def {
  BOOT_API_CTX_BOOT_INTERFACE_SEL_FLASH_SD : Z;
  BOOT_API_CTX_BOOT_INTERFACE_SEL_FLASH_EMMC : Z;
  STM32MP1_SDMMC1_BASE : Z;
  STM32MP1_SDMMC2_BASE : Z;
  STM32MP1_SDMMC3_BASE : Z;
  BL2_IMAGE_ID : nat;
  BL32_IMAGE_ID : nat;
  BL33_IMAGE_ID : nat;
  GPT_IMAGE_ID : nat;
  STM32_IMAGE_ID : nat;
  BL33_IMAGE_NAME : string;
  BL33_BINARY_TYPE : Z;
  MMC_BLOCK_SIZE : Z;
  STM32_PART_NUM : nat;
  (** the number of bits of [uintptr_t] *)
  UINTPTR_WIDTH : Z;
  (** whether [assert] is compiled in *)
  ENABLE_ASSERTIONS : bool;
  (** link-time addresses of the static objects whose address is taken *)
  addr_bl2_block_spec : Z;
  addr_bl32_block_spec : Z;
  addr_bl33_partition_spec : Z;
  addr_gpt_block_spec : Z;
  addr_stm32image_block_spec : Z;
  addr_mmc_block_dev_spec : Z;
  addr_stm32image_dev_info_spec : Z
}.

(** ** The collaborators

    Each function gets the arguments of the C call and the collaborators'
    world, and gives back the return code and the new world.  A function
    that is handed a pointer to one of this file's variables gets the
    variable's value and gives back the value it leaves there.

    [partition_init] is seen here by its effect on the world alone, as one
    event.  The parser finds the device to read through
    [plat_get_image_source], so that a check of this file runs while the
    call lasts; the resolver writes none of this file's variables, and the
    cells it stores to are the parser's own.  What happens inside the call
    is not among the events: the trace lists, in their order, the calls this
    file makes when one of its two entry points is called from outside, and
    says nothing of what is done while a collaborator runs, a call back
    into the resolver included.
    [get_partition_entry] gives a pointer into the parsed table or [NULL]:
    an entry or [None]. *)
Class io_backend (W : Type) := Build_io_backend {
  be_register_io_dev : io_dev_type → Z → W → Z * Z * W;
  be_io_dev_open : Z → Z → Z → W → Z * Z * W;
  be_io_dev_close : Z → W → Z * W;
  be_io_dev_init : Z → Z → W → Z * W;
  be_stm32_sdmmc2_mmc_init : stm32_sdmmc2_params → W → Z * W;
  be_partition_init : nat → W → W;
  be_get_partition_entry : string → W → option partition_entry_t;
  be_stm32_sdmmc2_mmc_get_device_size : W → Z
}.


(** ** Program state *)

(** The file's static variables, the boot context the ROM left at
    [stm32mp1_get_boot_ctx_address()], the caller's memory that the two
    output pointers of [plat_get_image_source] point into, the
    collaborators' world and the events so far.  The static variables have
    internal linkage and the boot context is not written after the ROM has
    run, so a collaborator changes them only through a pointer it is handed
    in the call; the cells behind the two output pointers belong to the
    caller of the resolver and are out of the collaborators' reach as
    well. *)
Record state (W : Type) := Build_state {
  boot_context : boot_api_context_t;
  dummy_dev_con : Z;
  dummy_dev_handle : Z;
  dummy_dev_spec : Z;
  image_dev_handle : Z;
  storage_dev_handle : Z;
  mmc_dev_con : Z;
  stm32image_dev_con : Z;
  stm32image_dev_info_spec : stm32image_device_info;
  caller_mem : gmap Z Z;
  world : W;
  trace : list event
}.

Arguments Build_state {W}.
Arguments boot_context {W}.
Arguments dummy_dev_con {W}.
Arguments dummy_dev_handle {W}.
Arguments dummy_dev_spec {W}.
Arguments image_dev_handle {W}.
Arguments storage_dev_handle {W}.
Arguments mmc_dev_con {W}.
Arguments stm32image_dev_con {W}.
Arguments stm32image_dev_info_spec {W}.
Arguments caller_mem {W}.
Arguments world {W}.
Arguments trace {W}.

(** How an execution ends without returning: [panic()], a failed [assert],
    or behaviour the C standard leaves undefined (a call through a null
    function pointer, an access outside an array). *)
Inductive halt_kind := Panic | AssertionFailed | Undefined.

Global Instance halt_kind_eq_dec : EqDecision halt_kind.
Proof. solve_decision. Defined.

Inductive outcome (W A : Type) :=
  | Returns (a : A) (s : state W)
  | Halts (h : halt_kind) (s : state W).

Arguments Returns {W A}.
Arguments Halts {W A}.

Definition final_state {W A} (o : outcome W A) : state W :=
  match o with
  | Returns _ s => s
  | Halts _ s => s
  end.

(** A computation threads the state and may halt. *)
Definition M (W A : Type) : Type := state W → outcome W A.

Definition ret {W A} (a : A) : M W A := fun s => Returns a s.

Definition bind {W A B} (m : M W A) (k : A → M W B) : M W B :=
  fun s =>
    match m s with
    | Returns a s' => k a s'
    | Halts h s' => Halts h s'
    end.

Definition halt {W A} (h : halt_kind) : M W A := fun s => Halts h s.

Declare Scope io_scope.
Delimit Scope io_scope with io.
Notation "x <- m ;; k" := (bind m (fun x => k))
  (at level 100, m at next level, right associativity) : io_scope.
Notation "m ;; k" := (bind m (fun _ => k))
  (at level 100, right associativity) : io_scope.

(** ** The program *)

Section Program.

Context {P : platform_def} {W : Type} {B : io_backend W}.

Local Open Scope io_scope.

Local Abbreviation M := (M W).

(** *** Accessors for the static variables *)

Definition get {A} (f : state W → A) : M A := fun s => Returns (f s) s.

Definition modify (f : state W → state W) : M unit :=
  fun s => Returns tt (f s).

Definition with_trace (t : list event) (s : state W) : state W :=
  Build_state (boot_context s) (dummy_dev_con s)
    (dummy_dev_handle s) (dummy_dev_spec s) (image_dev_handle s)
    (storage_dev_handle s) (mmc_dev_con s) (stm32image_dev_con s)
    (stm32image_dev_info_spec s) (caller_mem s) (world s) t.

Definition with_world (w : W) (s : state W) : state W :=
  Build_state (boot_context s) (dummy_dev_con s)
    (dummy_dev_handle s) (dummy_dev_spec s) (image_dev_handle s)
    (storage_dev_handle s) (mmc_dev_con s) (stm32image_dev_con s)
    (stm32image_dev_info_spec s) (caller_mem s) w (trace s).

Definition with_caller_mem (m : gmap Z Z) (s : state W) : state W :=
  Build_state (boot_context s) (dummy_dev_con s)
    (dummy_dev_handle s) (dummy_dev_spec s) (image_dev_handle s)
    (storage_dev_handle s) (mmc_dev_con s) (stm32image_dev_con s)
    (stm32image_dev_info_spec s) m (world s) (trace s).

Definition with_dev_info (d : stm32image_device_info) (s : state W)
  : state W :=
  Build_state (boot_context s) (dummy_dev_con s)
    (dummy_dev_handle s) (dummy_dev_spec s) (image_dev_handle s)
    (storage_dev_handle s) (mmc_dev_con s) (stm32image_dev_con s)
    d (caller_mem s) (world s) (trace s).

Definition load_handle (p : handle_slot) (s : state W) : Z :=
  match p with
  | dummy_dev_handle_p => dummy_dev_handle s
  | image_dev_handle_p => image_dev_handle s
  | storage_dev_handle_p => storage_dev_handle s
  end.

Definition with_handle (p : handle_slot) (v : Z) (s : state W) : state W :=
  Build_state (boot_context s) (dummy_dev_con s)
    (match p with dummy_dev_handle_p => v | _ => dummy_dev_handle s end)
    (dummy_dev_spec s)
    (match p with image_dev_handle_p => v | _ => image_dev_handle s end)
    (match p with storage_dev_handle_p => v | _ => storage_dev_handle s end)
    (mmc_dev_con s) (stm32image_dev_con s)
    (stm32image_dev_info_spec s) (caller_mem s) (world s) (trace s).

Definition load_connector (p : connector_slot) (s : state W) : Z :=
  match p with
  | dummy_dev_con_p => dummy_dev_con s
  | mmc_dev_con_p => mmc_dev_con s
  | stm32image_dev_con_p => stm32image_dev_con s
  end.

Definition with_connector (p : connector_slot) (v : Z) (s : state W)
  : state W :=
  Build_state (boot_context s)
    (match p with dummy_dev_con_p => v | _ => dummy_dev_con s end)
    (dummy_dev_handle s) (dummy_dev_spec s) (image_dev_handle s)
    (storage_dev_handle s)
    (match p with mmc_dev_con_p => v | _ => mmc_dev_con s end)
    (match p with stm32image_dev_con_p => v | _ => stm32image_dev_con s end)
    (stm32image_dev_info_spec s) (caller_mem s) (world s) (trace s).

Definition emit (e : event) : M unit :=
  modify (fun s => with_trace (trace s ++ [e]) s).

Definition set_world (w : W) : M unit := modify (with_world w).

Definition store_handle (p : handle_slot) (v : Z) : M unit :=
  modify (with_handle p v).

Definition store_connector (p : connector_slot) (v : Z) : M unit :=
  modify (with_connector p v).

Definition set_dev_info (d : stm32image_device_info) : M unit :=
  modify (with_dev_info d).

(** [*p = v] for a pointer into the caller's memory. *)
Definition store_caller (p v : Z) : M unit :=
  modify (fun s => with_caller_mem (<[p := v]> (caller_mem s)) s).

(** [(uintptr_t)v] for an unsigned [v]: the value modulo two to the width
    of the type. *)
Definition to_uintptr (v : Z) : Z := v `mod` 2 ^ UINTPTR_WIDTH.

(** *** Macros *)

Definition INFO (fmt : string) (args : list log_arg) : M unit :=
  emit (Log LOG_INFO fmt args).
Definition WARN (fmt : string) (args : list log_arg) : M unit :=
  emit (Log LOG_WARN fmt args).
Definition ERROR (fmt : string) (args : list log_arg) : M unit :=
  emit (Log LOG_ERROR fmt args).

Definition panic {A} : M A := halt Panic.

(** [assert(c)]: checked when assertions are compiled in, nothing
    otherwise. *)
Definition assert (c : bool) : M unit :=
  if ENABLE_ASSERTIONS then (if c then ret tt else halt AssertionFailed)
  else ret tt.

(** *** Calls into the collaborators *)

Definition register_io_dev (d : io_dev_type) (dev_con : connector_slot)
  : M Z :=
  old <- get (load_connector dev_con) ;;
  w <- get world ;;
  let '(rc, con, w') := be_register_io_dev d old w in
  set_world w' ;;
  store_connector dev_con con ;;
  emit (Call_register_io_dev d dev_con rc con) ;;
  ret rc.

Definition register_io_dev_dummy := register_io_dev IO_DUMMY.
Definition register_io_dev_block := register_io_dev IO_BLOCK.
Definition register_io_dev_mmc := register_io_dev IO_MMC.
Definition register_io_dev_stm32image := register_io_dev IO_STM32IMAGE.

Definition io_dev_open (dev_con dev_spec : Z) (handle : handle_slot) : M Z :=
  old <- get (load_handle handle) ;;
  w <- get world ;;
  let '(rc, h, w') := be_io_dev_open dev_con dev_spec old w in
  set_world w' ;;
  store_handle handle h ;;
  emit (Call_io_dev_open dev_con dev_spec handle rc h) ;;
  ret rc.

Definition io_dev_close (h : Z) : M Z :=
  w <- get world ;;
  let '(rc, w') := be_io_dev_close h w in
  set_world w' ;;
  emit (Call_io_dev_close h rc) ;;
  ret rc.

Definition io_dev_init (h init_params : Z) : M Z :=
  w <- get world ;;
  let '(rc, w') := be_io_dev_init h init_params w in
  set_world w' ;;
  emit (Call_io_dev_init h init_params rc) ;;
  ret rc.

Definition stm32_sdmmc2_mmc_init (params : stm32_sdmmc2_params) : M Z :=
  w <- get world ;;
  let '(rc, w') := be_stm32_sdmmc2_mmc_init params w in
  set_world w' ;;
  emit (Call_stm32_sdmmc2_mmc_init params rc) ;;
  ret rc.

Definition partition_init (image_id : nat) : M unit :=
  w <- get world ;;
  set_world (be_partition_init image_id w) ;;
  emit (Call_partition_init image_id).

Definition get_partition_entry (nm : string)
  : M (option partition_entry_t) :=
  w <- get world ;;
  let entry := be_get_partition_entry nm w in
  emit (Call_get_partition_entry nm entry) ;;
  ret entry.

Definition stm32_sdmmc2_mmc_get_device_size : M Z :=
  w <- get world ;;
  let size := be_stm32_sdmmc2_mmc_get_device_size w in
  emit (Call_stm32_sdmmc2_mmc_get_device_size size) ;;
  ret size.

Definition dmbsy : M unit := emit Call_dmbsy.

(** *** The availability checks (lines 134-147) *)

Definition open_dummy (spec : Z) : M Z :=
  h <- get dummy_dev_handle ;;
  io_dev_init h 0.

Definition open_image (spec : Z) : M Z :=
  h <- get image_dev_handle ;;
  io_dev_init h 0.

Definition open_storage (spec : Z) : M Z :=
  h <- get storage_dev_handle ;;
  io_dev_init h 0.

(** *** The policy table (lines 100-132) *)

(** A null [dev_handle] or [check] pointer is [None]. *)
Record plat_io_policy := Build_policy {
  dev_handle : option handle_slot;
  image_spec : Z;
  check : option (Z → M Z)
}.

(** An element that no designated initializer names is zero-initialized. *)
Definition zero_policy : plat_io_policy :=
  {| dev_handle := None; image_spec := 0; check := None |}.

(** The array has one element more than the largest designated index. *)
Definition policies_size : nat :=
  S (BL2_IMAGE_ID `max` (BL32_IMAGE_ID `max` (BL33_IMAGE_ID `max`
    (GPT_IMAGE_ID `max` STM32_IMAGE_ID)))).

(** The designated initializers applied in the order they are written. *)
Definition policies : list plat_io_policy :=
  <[STM32_IMAGE_ID :=
      {| dev_handle := Some storage_dev_handle_p;
         image_spec := addr_stm32image_block_spec;
         check := Some open_storage |}]>
  (<[GPT_IMAGE_ID :=
      {| dev_handle := Some storage_dev_handle_p;
         image_spec := addr_gpt_block_spec;
         check := Some open_storage |}]>
  (<[BL33_IMAGE_ID :=
      {| dev_handle := Some image_dev_handle_p;
         image_spec := addr_bl33_partition_spec;
         check := Some open_image |}]>
  (<[BL32_IMAGE_ID :=
      {| dev_handle := Some dummy_dev_handle_p;
         image_spec := addr_bl32_block_spec;
         check := Some open_dummy |}]>
  (<[BL2_IMAGE_ID :=
      {| dev_handle := Some dummy_dev_handle_p;
         image_spec := addr_bl2_block_spec;
         check := Some open_dummy |}]>
  (replicate policies_size zero_policy))))).

(** *** plat_get_image_source (lines 297-313) *)

Definition plat_get_image_source (image_id : nat) (dev_handle_out image_spec_out : Z)
  : M Z :=
  assert (bool_decide (image_id < length policies)%nat) ;;
  match policies !! image_id with
  | None => halt Undefined
  | Some policy =>
      rc <- match check policy with
            | None => halt Undefined
            | Some f => f (image_spec policy)
            end ;;
      (if rc =? 0 then
         store_caller image_spec_out (image_spec policy) ;;
         match dev_handle policy with
         | None => halt Undefined
         | Some p =>
             h <- get (load_handle p) ;;
             store_caller dev_handle_out h
         end
       else ret tt) ;;
      ret rc
  end.

(** *** print_boot_device (lines 149-167)

    Format strings are kept as the source writes them. *)

Definition print_boot_device (ctx : boot_api_context_t) : M unit :=
  (if boot_interface_selected ctx
        =? BOOT_API_CTX_BOOT_INTERFACE_SEL_FLASH_SD then
     INFO "Using SDMMC\n" []
   else if boot_interface_selected ctx
        =? BOOT_API_CTX_BOOT_INTERFACE_SEL_FLASH_EMMC then
     INFO "Using EMMC\n" []
   else
     ERROR "Boot interface not found\n" [] ;;
     panic) ;;
  if negb (boot_interface_instance ctx =? 0) then
    INFO "  Instance %d\n" [ArgInt (boot_interface_instance ctx)]
  else ret tt.

(** *** stm32mp1_io_setup (lines 169-291)

    The body is cut into the blocks of the source: the fixed-offset device,
    the SDMMC peripheral, the block device and the partition table, the
    partition offsets, the streaming and the container device. *)

Definition IMG_IDX_BL33 : nat := 0.
Definition IMG_IDX_NUM : nat := 1.

(** Lines 181-194. *)
Definition io_setup_dummy (ctx : boot_api_context_t) : M unit :=
  print_boot_device ctx ;;
  (if (boot_partition_used_toboot ctx =? 1)
      || (boot_partition_used_toboot ctx =? 2) then
     INFO "Boot used partition fsbl%d\n"
          [ArgInt (boot_partition_used_toboot ctx)]
   else ret tt) ;;
  io_result <- register_io_dev_dummy dummy_dev_con_p ;;
  assert (io_result =? 0) ;;
  con <- get dummy_dev_con ;;
  spec <- get dummy_dev_spec ;;
  io_result <- io_dev_open con spec dummy_dev_handle_p ;;
  assert (io_result =? 0).

(** The inner [switch], lines 212-226. *)
Definition io_setup_reg_base (ctx : boot_api_context_t)
    (mmc_default_instance : Z) : M Z :=
  match boot_interface_instance ctx with
  | 1 => ret STM32MP1_SDMMC1_BASE
  | 2 => ret STM32MP1_SDMMC2_BASE
  | 3 => ret STM32MP1_SDMMC3_BASE
  | _ =>
      WARN "SDMMC instance not found, using default\n" [] ;;
      ret mmc_default_instance
  end.

(** Lines 199-233. *)
Definition io_setup_sdmmc (ctx : boot_api_context_t) : M unit :=
  dmbsy ;;
  let '(dev_type, mmc_default_instance) :=
    if boot_interface_selected ctx
         =? BOOT_API_CTX_BOOT_INTERFACE_SEL_FLASH_EMMC
    then (MMC_IS_EMMC, STM32MP1_SDMMC2_BASE)
    else (MMC_IS_SD, STM32MP1_SDMMC1_BASE) in
  base <- io_setup_reg_base ctx mmc_default_instance ;;
  let params :=
    {| reg_base := base; device_info := {| mmc_dev_type := dev_type |} |} in
  rc <- stm32_sdmmc2_mmc_init params ;;
  (if negb (rc =? 0) then
     ERROR "SDMMC%u init failed\n" [ArgInt (boot_interface_instance ctx)] ;;
     panic
   else ret tt).

(** Lines 235-252. *)
Definition io_setup_partition_table : M unit :=
  io_result <- register_io_dev_block mmc_dev_con_p ;;
  (if negb (io_result =? 0) then panic else ret tt) ;;
  con <- get mmc_dev_con ;;
  io_result <- io_dev_open con addr_mmc_block_dev_spec
                           storage_dev_handle_p ;;
  assert (io_result =? 0) ;;
  partition_init GPT_IMAGE_ID ;;
  h <- get storage_dev_handle ;;
  io_result <- io_dev_close h ;;
  assert (io_result =? 0) ;;
  size <- stm32_sdmmc2_mmc_get_device_size ;;
  info <- get stm32image_dev_info_spec ;;
  set_dev_info {| part_info := part_info info; device_size := size;
                  lba_size := lba_size info |}.

(** [part->f = v] for [part = &stm32image_dev_info_spec.part_info[idx]]. *)
Definition update_part (idx : nat)
    (f : stm32image_part_info → stm32image_part_info) : M unit :=
  info <- get stm32image_dev_info_spec ;;
  match part_info info !! idx with
  | None => halt Undefined
  | Some part =>
      set_dev_info {| part_info := <[idx := f part]> (part_info info);
                      device_size := device_size info;
                      lba_size := lba_size info |}
  end.

(** The body of the loop, lines 255-264. *)
Definition io_setup_part_offset (idx : nat) : M unit :=
  info <- get stm32image_dev_info_spec ;;
  match part_info info !! idx with
  | None => halt Undefined
  | Some part =>
      entry <- get_partition_entry (name part) ;;
      match entry with
      | None =>
          ERROR "Partition %s not found\n" [ArgStr (name part)] ;;
          panic
      | Some e =>
          update_part idx (fun p =>
            {| name := name p; binary_type := binary_type p;
               part_offset := to_uintptr (entry_start e);
               bkp_offset := bkp_offset p |}) ;;
          update_part idx (fun p =>
            {| name := name p; binary_type := binary_type p;
               part_offset := part_offset p; bkp_offset := 0 |})
      end
  end.

(** [for (idx = first; idx < first + n; idx++) body(idx)]. *)
Fixpoint for_idx (n : nat) (first : nat) (body : nat → M unit) : M unit :=
  match n with
  | O => ret tt
  | S n' => body first ;; for_idx n' (S first) body
  end.

(** Lines 254-265. *)
Definition io_setup_part_offsets : M unit :=
  for_idx IMG_IDX_NUM 0 io_setup_part_offset.

(** Lines 267-283. *)
Definition io_setup_reopen : M unit :=
  io_result <- register_io_dev_mmc mmc_dev_con_p ;;
  assert (io_result =? 0) ;;
  con <- get mmc_dev_con ;;
  io_result <- io_dev_open con 0 storage_dev_handle_p ;;
  assert (io_result =? 0) ;;
  io_result <- register_io_dev_stm32image stm32image_dev_con_p ;;
  assert (io_result =? 0) ;;
  con <- get stm32image_dev_con ;;
  io_result <- io_dev_open con addr_stm32image_dev_info_spec
                           image_dev_handle_p ;;
  assert (io_result =? 0).

(** The [case] labels of the [switch] at line 196. *)
Definition storage_interface (sel : Z) : bool :=
  (sel =? BOOT_API_CTX_BOOT_INTERFACE_SEL_FLASH_SD)
  || (sel =? BOOT_API_CTX_BOOT_INTERFACE_SEL_FLASH_EMMC).

Definition stm32mp1_io_setup : M unit :=
  ctx <- get boot_context ;;
  io_setup_dummy ctx ;;
  if storage_interface (boot_interface_selected ctx) then
    io_setup_sdmmc ctx ;;
    io_setup_partition_table ;;
    io_setup_part_offsets ;;
    io_setup_reopen
  else
    ERROR "Boot interface %d not supported\n"
          [ArgInt (boot_interface_selected ctx)].

(** The execution of [stm32mp1_io_setup] up to the loop of line 254, for a
    boot context that selects a storage interface. *)
Definition io_setup_discovery : M unit :=
  ctx <- get boot_context ;;
  io_setup_dummy ctx ;;
  io_setup_sdmmc ctx ;;
  io_setup_partition_table.

(** The variables as the C initializers leave them at load time. *)
Definition initial_dev_info : stm32image_device_info :=
  {| part_info :=
       <[IMG_IDX_BL33 :=
           {| name := BL33_IMAGE_NAME; binary_type := BL33_BINARY_TYPE;
              part_offset := 0; bkp_offset := 0 |}]>
       (replicate STM32_PART_NUM
          {| name := ""; binary_type := 0; part_offset := 0;
             bkp_offset := 0 |});
     device_size := 0;
     lba_size := MMC_BLOCK_SIZE |}.

Definition initial_state (ctx : boot_api_context_t) (mem : gmap Z Z) (w : W)
  : state W :=
  {| boot_context := ctx; dummy_dev_con := 0; dummy_dev_handle := 0;
     dummy_dev_spec := 0; image_dev_handle := 0; storage_dev_handle := 0;
     mmc_dev_con := 0; stm32image_dev_con := 0;
     stm32image_dev_info_spec := initial_dev_info;
     caller_mem := mem; world := w; trace := [] |}.

(** ** Notions the claims are stated with *)

(** The two storage interfaces, and the one a selector value stands for. *)
Inductive interface_kind := SD | EMMC.

Definition interface_kind_of (sel : Z) : option interface_kind :=
  if sel =? BOOT_API_CTX_BOOT_INTERFACE_SEL_FLASH_SD then Some SD
  else if sel =? BOOT_API_CTX_BOOT_INTERFACE_SEL_FLASH_EMMC then Some EMMC
  else None.

(** The register base as the specification documents it: one base per
    instance 1, 2, 3 and otherwise the default of the interface kind.  It
    is written from the specification, to be compared with what
    [stm32mp1_io_setup] passes to the driver. *)
Definition documented_reg_base (k : interface_kind) (instance : Z) : Z :=
  if instance =? 1 then STM32MP1_SDMMC1_BASE
  else if instance =? 2 then STM32MP1_SDMMC2_BASE
  else if instance =? 3 then STM32MP1_SDMMC3_BASE
  else match k with
       | EMMC => STM32MP1_SDMMC2_BASE
       | SD => STM32MP1_SDMMC1_BASE
       end.

Definition documented_dev_type (k : interface_kind) : mmc_device_type :=
  match k with
  | EMMC => MMC_IS_EMMC
  | SD => MMC_IS_SD
  end.

Definition recognized_instance (instance : Z) : bool :=
  (instance =? 1) || (instance =? 2) || (instance =? 3).

Definition fallback_warning (instance : Z) : list event :=
  if recognized_instance instance then []
  else [Log LOG_WARN "SDMMC instance not found, using default\n" []].

(** A registration or an opening of an IO device. *)
Definition device_event (e : event) : bool :=
  match e with
  | Call_register_io_dev _ _ _ _ | Call_io_dev_open _ _ _ _ _ => true
  | _ => false
  end.

(** A call that brings up the peripheral or a device on top of it: anything
    but the fixed-offset device, the logs and the barrier. *)
Definition peripheral_event (e : event) : bool :=
  match e with
  | Log _ _ _ | Call_dmbsy
  | Call_register_io_dev IO_DUMMY _ _ _
  | Call_io_dev_open _ _ dummy_dev_handle_p _ _ => false
  | _ => true
  end.

(** A registration or an opening of the container-format device. *)
Definition container_event (e : event) : bool :=
  match e with
  | Call_register_io_dev IO_STM32IMAGE _ _ _
  | Call_register_io_dev _ stm32image_dev_con_p _ _
  | Call_io_dev_open _ _ image_dev_handle_p _ _ => true
  | _ => false
  end.

(** A call that bears on the sessions of the storage handle: a connector
    written to [mmc_dev_con], an opening into [storage_dev_handle], a
    closing. *)
Definition session_event (e : event) : bool :=
  match e with
  | Call_register_io_dev _ mmc_dev_con_p _ _
  | Call_io_dev_open _ _ storage_dev_handle_p _ _
  | Call_io_dev_close _ _ => true
  | _ => false
  end.

(** The sessions of the peripheral as the design notes draw them. *)
Inductive session :=
  | Unopened
  | OpenedForTableRead (h : Z)
  | Closed
  | OpenedForStreaming (h : Z).

Record monitor := Build_monitor {
  mon_connector : option io_dev_type;
  mon_session : session
}.

(** One event seen by the monitor; [None] when the event breaks the order
    [Unopened], [OpenedForTableRead], [Closed], [OpenedForStreaming]. *)
Definition monitor_step (m : monitor) (e : event) : option monitor :=
  match e with
  | Call_register_io_dev d mmc_dev_con_p _ _ =>
      Some {| mon_connector := Some d; mon_session := mon_session m |}
  | Call_io_dev_open _ _ storage_dev_handle_p _ h =>
      match mon_session m, mon_connector m with
      | Unopened, Some IO_BLOCK =>
          Some {| mon_connector := mon_connector m;
                  mon_session := OpenedForTableRead h |}
      | Closed, Some IO_MMC =>
          Some {| mon_connector := mon_connector m;
                  mon_session := OpenedForStreaming h |}
      | _, _ => None
      end
  | Call_io_dev_close h _ =>
      match mon_session m with
      | OpenedForTableRead h' =>
          if h =? h' then
            Some {| mon_connector := mon_connector m; mon_session := Closed |}
          else None
      | _ => None
      end
  | _ => Some m
  end.

Definition run_monitor (m : monitor) (evs : list event) : option monitor :=
  foldl (fun om e => om ≫= fun m' => monitor_step m' e) (Some m) evs.

Definition monitor_start : monitor :=
  {| mon_connector := None; mon_session := Unopened |}.

(** What an element of the policy table can be: left zero, or one of the
    three shapes the initializers write. *)
Definition policy_shape (p : plat_io_policy) : Prop :=
  p = zero_policy
  ∨ (dev_handle p = Some dummy_dev_handle_p ∧ check p = Some open_dummy)
  ∨ (dev_handle p = Some image_dev_handle_p ∧ check p = Some open_image)
  ∨ (dev_handle p = Some storage_dev_handle_p ∧ check p = Some open_storage).

(** The file's variables and the caller's memory are the same in both
    states; the collaborators' world and the trace may differ. *)
Definition same_variables (s s' : state W) : Prop :=
  boot_context s' = boot_context s
  ∧ (∀ p, load_handle p s' = load_handle p s)
  ∧ (∀ p, load_connector p s' = load_connector p s)
  ∧ dummy_dev_spec s' = dummy_dev_spec s
  ∧ stm32image_dev_info_spec s' = stm32image_dev_info_spec s
  ∧ caller_mem s' = caller_mem s.

(** [s'] has the trace of [s] followed by events that all satisfy [Q]. *)
Definition emitted (Q : event → Prop) (s s' : state W) : Prop :=
  ∃ evs, trace s' = trace s ++ evs ∧ Forall Q evs.

(** Whatever way [m] ends, its last state is related to the first. *)
Definition respects {A} (R : relation (state W)) (m : M A) : Prop :=
  ∀ s, R s (final_state (m s)).

(** A relation between the state before and the state after that every
    step of the program keeps when it only touches the world, a handle
    variable the frame lets go, a connector, or adds an event the frame
    allows. *)
Class Frame (R : relation (state W)) := Build_Frame {
  frame_allowed : event → Prop;
  frame_slot : handle_slot → Prop;
  frame_preorder :: PreOrder R;
  frame_world s w : R s (with_world w s);
  frame_handle s p v : frame_slot p → R s (with_handle p v s);
  frame_connector s p v : R s (with_connector p v s);
  frame_emit s e : frame_allowed e → R s (with_trace (trace s ++ [e]) s)
}.

(** The device information is left as it was. *)
Definition same_dev_info (s s' : state W) : Prop :=
  stm32image_dev_info_spec s' = stm32image_dev_info_spec s.

(** The handle variable [p] is left as it was. *)
Definition same_handle (p : handle_slot) (s s' : state W) : Prop :=
  load_handle p s' = load_handle p s.

(** An opening into the handle variable [p]. *)
Definition opens (p : handle_slot) (e : event) : bool :=
  match e with
  | Call_io_dev_open _ _ p' _ _ => bool_decide (p' = p)
  | _ => false
  end.

(** The handle that the last opening into [p] among [evs] left in [p]. *)
Fixpoint last_opened (p : handle_slot) (evs : list event) : option Z :=
  match evs with
  | [] => None
  | e :: evs' =>
      match last_opened p evs' with
      | Some h => Some h
      | None =>
          match e with
          | Call_io_dev_open _ _ p' _ h =>
              if bool_decide (p' = p) then Some h else None
          | _ => None
          end
      end
  end.

(** An image identifier is resolvable in [s] when [plat_get_image_source]
    returns for it. *)
Definition resolvable (image_id : nat) (s : state W) : Prop :=
  ∀ dh sp, ∃ rc s', plat_get_image_source image_id dh sp s = Returns rc s'.

(** The second claim as the specification words it: with an interface that
    is none of the two, setup says so, returns with no peripheral brought
    up, and the images of the fixed-offset device are resolvable. *)
Definition unsupported_interface_returns (s : state W) : Prop :=
  ∃ s' evs,
    stm32mp1_io_setup s = Returns tt s'
    ∧ trace s' = trace s ++ evs
    ∧ Log LOG_ERROR "Boot interface %d not supported\n"
          [ArgInt (boot_interface_selected (boot_context s))] ∈ evs
    ∧ Forall (fun e => peripheral_event e = false) evs
    ∧ resolvable BL2_IMAGE_ID s'
    ∧ resolvable BL32_IMAGE_ID s'.


(** ** Further notions, for the behaviour beyond the claims *)

Definition is_log (e : event) : bool :=
  match e with
  | Log _ _ _ => true
  | _ => false
  end.

(** The message of the [default] branch of the [switch] at line 196. *)
Definition unsupported_message (e : event) : bool :=
  match e with
  | Log LOG_ERROR fmt _ =>
      String.eqb fmt "Boot interface %d not supported\n"
  | _ => false
  end.

(** The return code of a call whose failure the file answers with
    [assert]: every registration but that of the block device, every
    opening, the closing. *)
Definition asserted_rc (e : event) : option Z :=
  match e with
  | Call_register_io_dev IO_BLOCK _ _ _ => None
  | Call_register_io_dev _ _ rc _ => Some rc
  | Call_io_dev_open _ _ _ rc _ => Some rc
  | Call_io_dev_close _ rc => Some rc
  | _ => None
  end.

(** The return code of a call whose failure the file answers with
    [panic()]: the driver initialization and the registration of the block
    device. *)
Definition panicking_rc (e : event) : option Z :=
  match e with
  | Call_register_io_dev IO_BLOCK _ rc _ => Some rc
  | Call_stm32_sdmmc2_mmc_init _ rc => Some rc
  | _ => None
  end.

(** What the last event of a run of setup that halts can be. *)
Definition halt_cause (h : halt_kind) (e : event) : Prop :=
  match h with
  | Panic =>
      e = Log LOG_ERROR "Boot interface not found\n" []
      ∨ (∃ instance,
           e = Log LOG_ERROR "SDMMC%u init failed\n" [ArgInt instance])
      ∨ (∃ nm, e = Log LOG_ERROR "Partition %s not found\n" [ArgStr nm])
      ∨ (∃ rc con,
           e = Call_register_io_dev IO_BLOCK mmc_dev_con_p rc con ∧ rc ≠ 0)
  | AssertionFailed =>
      ENABLE_ASSERTIONS = true ∧ ∃ rc, asserted_rc e = Some rc ∧ rc ≠ 0
  | Undefined => False
  end.

(** The return codes an event carries are those of a run that went on:
    0 where a failure panics, and 0 where a failure is asserted against
    when assertions are compiled in. *)
Definition rc_passed (e : event) : Prop :=
  (∀ rc, panicking_rc e = Some rc → rc = 0)
  ∧ (ENABLE_ASSERTIONS = true → ∀ rc, asserted_rc e = Some rc → rc = 0).

(** The file's variables are the same in both states; the caller's memory,
    the world and the trace may differ. *)
Definition same_statics (s s' : state W) : Prop :=
  boot_context s' = boot_context s
  ∧ (∀ p, load_handle p s' = load_handle p s)
  ∧ (∀ p, load_connector p s' = load_connector p s)
  ∧ dummy_dev_spec s' = dummy_dev_spec s
  ∧ stm32image_dev_info_spec s' = stm32image_dev_info_spec s.

(** Two descriptions of a named image that differ at most in the two
    offsets. *)
Definition same_image (p p' : stm32image_part_info) : Prop :=
  name p' = name p ∧ binary_type p' = binary_type p.

(** What setup leaves alone, however it ends: the boot context, the
    specification of the fixed-offset device, the caller's memory, the
    block size of the device information, and of the named images their
    number, names and binary types, and everything of those past the ones
    the loop visits. *)
Definition kept_by_setup (s s' : state W) : Prop :=
  boot_context s' = boot_context s
  ∧ dummy_dev_spec s' = dummy_dev_spec s
  ∧ caller_mem s' = caller_mem s
  ∧ lba_size (stm32image_dev_info_spec s')
    = lba_size (stm32image_dev_info_spec s)
  ∧ Forall2 same_image (part_info (stm32image_dev_info_spec s))
      (part_info (stm32image_dev_info_spec s'))
  ∧ drop IMG_IDX_NUM (part_info (stm32image_dev_info_spec s'))
    = drop IMG_IDX_NUM (part_info (stm32image_dev_info_spec s)).

End Program.

Arguments ret {W A} a s /.
Arguments bind {W A B} m k s /.
Arguments halt {W A} h s /.
Arguments get {W A} f s /.
Arguments modify {W} f s /.

(** ** A simulated card

    A backend to run the program on: a card with a partition table on it, an
    IO framework that hands out fresh handles and never fails to register
    or open, and a device whose [io_dev_init] answers with a fixed code. *)

Record sim_world := Build_sim_world {
  sim_media : list partition_entry_t;
  sim_table : list partition_entry_t;
  sim_next_handle : Z;
  sim_init_rc : Z
}.

Definition sim_connector (d : io_dev_type) : Z :=
  match d with
  | IO_DUMMY => 0x100
  | IO_BLOCK => 0x200
  | IO_MMC => 0x300
  | IO_STM32IMAGE => 0x400
  end.

Definition sim_backend : io_backend sim_world :=
  {| be_register_io_dev := fun d _ w => (0, sim_connector d, w);
     be_io_dev_open := fun _ _ _ w =>
       (0, sim_next_handle w,
        Build_sim_world (sim_media w) (sim_table w) (sim_next_handle w + 1)
                        (sim_init_rc w));
     be_io_dev_close := fun _ w => (0, w);
     be_io_dev_init := fun _ _ w => (sim_init_rc w, w);
     be_stm32_sdmmc2_mmc_init := fun _ w => (0, w);
     be_partition_init := fun _ w =>
       Build_sim_world (sim_media w) (sim_media w) (sim_next_handle w)
                       (sim_init_rc w);
     be_get_partition_entry := fun nm w =>
       List.find (fun e => bool_decide (entry_name e = nm)) (sim_table w);
     be_stm32_sdmmc2_mmc_get_device_size := fun _ => 0x40000000 |}.

(** A sample build: the two flash interfaces are 1 and 2, the image
    identifiers leave holes in the policy table, pointers have 32 bits,
    assertions are on; [nm] is the name of the partition that holds BL33. *)
Definition sim_platform_named (nm : string) : platform_def :=
  {| BOOT_API_CTX_BOOT_INTERFACE_SEL_FLASH_SD := 1;
     BOOT_API_CTX_BOOT_INTERFACE_SEL_FLASH_EMMC := 2;
     STM32MP1_SDMMC1_BASE := 0x58005000;
     STM32MP1_SDMMC2_BASE := 0x58007000;
     STM32MP1_SDMMC3_BASE := 0x48004000;
     BL2_IMAGE_ID := 1;
     BL32_IMAGE_ID := 4;
     BL33_IMAGE_ID := 5;
     GPT_IMAGE_ID := 28;
     STM32_IMAGE_ID := 29;
     BL33_IMAGE_NAME := nm;
     BL33_BINARY_TYPE := 0;
     MMC_BLOCK_SIZE := 512;
     STM32_PART_NUM := 1;
     UINTPTR_WIDTH := 32;
     ENABLE_ASSERTIONS := true;
     addr_bl2_block_spec := 0x2ffc0000;
     addr_bl32_block_spec := 0x2ffc0008;
     addr_bl33_partition_spec := 0x2ffc0010;
     addr_gpt_block_spec := 0x2ffc0020;
     addr_stm32image_block_spec := 0x2ffc0028;
     addr_mmc_block_dev_spec := 0x2ffc0030;
     addr_stm32image_dev_info_spec := 0x2ffc0050 |}.

Definition sim_platform : platform_def := sim_platform_named "ssbl".

Definition sim_card (media : list partition_entry_t) (init_rc : Z)
  : sim_world :=
  {| sim_media := media; sim_table := []; sim_next_handle := 0x1000;
     sim_init_rc := init_rc |}.

Definition sim_gpt : list partition_entry_t :=
  [ {| entry_start := 0x4400; entry_length := 0x40000; entry_name := "fsbl1" |};
    {| entry_start := 0x44400; entry_length := 0x40000; entry_name := "fsbl2" |};
    {| entry_start := 0x84400; entry_length := 0x200000; entry_name := "ssbl" |} ].

Definition sim_boot (P : platform_def) (sel instance : Z)
    (media : list partition_entry_t) (init_rc : Z) : state sim_world :=
  initial_state
    {| boot_interface_selected := sel; boot_interface_instance := instance;
       boot_partition_used_toboot := 1 |}
    ∅ (sim_card media init_rc).


(** The states the examples run from: an SD card in slot 1 with the three
    partitions, the same card after setup, an eMMC with an instance number
    the switch does not know and no [ssbl] partition, an eMMC on instance
    2, and two boots whose interface is no storage interface. *)
Definition sim_sd1 : state sim_world := sim_boot sim_platform 1 1 sim_gpt 0.

Definition sim_ready : state sim_world :=
  final_state (stm32mp1_io_setup (P := sim_platform) (B := sim_backend) sim_sd1).

Definition sim_absent : state sim_world :=
  final_state (stm32mp1_io_setup (P := sim_platform) (B := sim_backend)
                 (sim_boot sim_platform 1 1 sim_gpt (-2))).

Definition sim_emmc7 : state sim_world :=
  sim_boot sim_platform 2 7 (take 2 sim_gpt) 0.

Definition sim_emmc2 : state sim_world := sim_boot sim_platform 2 2 sim_gpt 0.

Definition sim_uart : state sim_world := sim_boot sim_platform 5 0 sim_gpt 0.

Definition sim_nand : state sim_world := sim_boot sim_platform 3 1 sim_gpt 0.






(** Elements of the policy table of the sample build. *)
Definition sim_bl2_policy : plat_io_policy :=
  {| dev_handle := Some dummy_dev_handle_p;
     image_spec := 0x2ffc0000;
     check := Some (open_dummy (B := sim_backend)) |}.

Definition sim_bl33_policy : plat_io_policy :=
  {| dev_handle := Some image_dev_handle_p;
     image_spec := 0x2ffc0010;
     check := Some (open_image (B := sim_backend)) |}.

Definition sim_gpt_policy : plat_io_policy :=
  {| dev_handle := Some storage_dev_handle_p;
     image_spec := 0x2ffc0020;
     check := Some (open_storage (B := sim_backend)) |}.

(** A card whose driver initialization answers [mmc_rc] and whose IO
    framework answers [block_rc] to the registration of the block device
    and [close_rc] to a closing; everything else as [sim_backend]. *)
Definition sim_faulty (mmc_rc block_rc close_rc : Z) : io_backend sim_world :=
  {| be_register_io_dev := fun d _ w =>
       (match d with IO_BLOCK => block_rc | _ => 0 end, sim_connector d, w);
     be_io_dev_open := be_io_dev_open (io_backend := sim_backend);
     be_io_dev_close := fun _ w => (close_rc, w);
     be_io_dev_init := be_io_dev_init (io_backend := sim_backend);
     be_stm32_sdmmc2_mmc_init := fun _ w => (mmc_rc, w);
     be_partition_init := be_partition_init (io_backend := sim_backend);
     be_get_partition_entry :=
       be_get_partition_entry (io_backend := sim_backend);
     be_stm32_sdmmc2_mmc_get_device_size :=
       be_stm32_sdmmc2_mmc_get_device_size (io_backend := sim_backend) |}.

(** ** The policy table and the resolver *)

Section Resolver.

Context {P : platform_def} {W : Type} {B : io_backend W}.

Lemma length_policies : length policies = policies_size.
Proof. unfold policies. by rewrite !length_insert, length_replicate. Qed.

Lemma policies_shape i p : policies !! i = Some p → policy_shape p.
Proof.
  unfold policies, policy_shape.
  do 5 (rewrite list_lookup_insert_Some; intros [(? & <- & ?) | (? & H)];
        [ cbn; tauto | revert H ]).
  rewrite lookup_replicate. intros [-> _]. by left.
Qed.

Lemma io_dev_init_run h ip s :
  io_dev_init h ip s =
    Returns (be_io_dev_init h ip (world s)).1
      (with_trace
         (trace s ++ [Call_io_dev_init h ip (be_io_dev_init h ip (world s)).1])
         (with_world (be_io_dev_init h ip (world s)).2 s)).
Proof.
  unfold io_dev_init. cbn. by destruct (be_io_dev_init h ip (world s)).
Qed.

Lemma io_dev_init_same_variables h ip s rc s' :
  io_dev_init h ip s = Returns rc s' → same_variables s s'.
Proof.
  rewrite io_dev_init_run. intros [= _ <-].
  repeat split; by intros [].
Qed.

Lemma check_is_io_dev_init (p : plat_io_policy) f :
  policy_shape p → check p = Some f →
  ∃ slot, dev_handle p = Some slot
    ∧ ∀ spec s, f spec s = io_dev_init (load_handle slot s) 0 s.
Proof.
  intros [-> | [[Hd Hc] | [[Hd Hc] | [Hd Hc]]]] Hf; [done | ..];
    rewrite Hc in Hf; injection Hf as <-; eexists; (split; [exact Hd | done]).
Qed.

(** C9: whichever element of the policy table a check comes from, the check
    gives, for every specification it is passed and in every state, what
    [io_dev_init] gives on the value of the element's own device-handle
    variable with init parameter 0; the specification plays no part. *)
Theorem check_ignores_spec i (p : plat_io_policy) f :
  policies !! i = Some p → check p = Some f →
  ∃ slot, dev_handle p = Some slot
    ∧ (∀ spec s, f spec s = io_dev_init (load_handle slot s) 0 s)
    ∧ (∀ spec spec' s, f spec s = f spec' s).
Proof.
  intros Hp Hf.
  destruct (check_is_io_dev_init p f (policies_shape _ _ Hp) Hf)
    as (slot & Hslot & Hrun).
  exists slot. split; [done |]. split; [done |].
  intros spec spec' s. by rewrite !Hrun.
Qed.

Lemma assert_in_range_run i (s : state W) :
  (i < length policies)%nat →
  assert (bool_decide (i < length policies)%nat) s = Returns tt s.
Proof.
  intros Hi. unfold assert. rewrite bool_decide_eq_true_2 by done.
  by destruct ENABLE_ASSERTIONS.
Qed.

(** C3: for an identifier in the table whose check returns a code other
    than 0, the resolver returns that code in the state the check left:
    nothing is stored through the output pointers, and no variable of the
    file has changed. *)
Theorem plat_get_image_source_failure i (p : plat_io_policy) f s s1 rc dh sp :
  policies !! i = Some p → check p = Some f →
  f (image_spec p) s = Returns rc s1 → rc ≠ 0 →
  plat_get_image_source i dh sp s = Returns rc s1
  ∧ caller_mem s1 = caller_mem s
  ∧ same_variables s s1.
Proof.
  intros Hp Hf Hrun Hrc.
  destruct (check_is_io_dev_init p f (policies_shape _ _ Hp) Hf)
    as (slot & Hslot & Hinit).
  assert (Hsame : same_variables s s1).
  { rewrite Hinit in Hrun. by eapply io_dev_init_same_variables. }
  split; [| split; [apply Hsame | done]].
  unfold plat_get_image_source. cbn.
  rewrite assert_in_range_run by (by eapply lookup_lt_Some).
  rewrite Hp. cbn. rewrite Hf, Hrun. cbn.
  by destruct (Z.eqb_spec rc 0).
Qed.

(** C8: an identifier past the end of the table never makes the resolver
    return: the execution halts, on the assertion when assertions are
    compiled in.  An identifier below the size of the table finds an
    element of the table, and the assertion does not fire. *)
Theorem plat_get_image_source_range i dh sp (s : state W) :
  ((length policies ≤ i)%nat →
     policies !! i = None
     ∧ (∃ h, plat_get_image_source i dh sp s = Halts h s)
     ∧ (ENABLE_ASSERTIONS = true →
        plat_get_image_source i dh sp s = Halts AssertionFailed s))
  ∧ ((i < length policies)%nat →
     is_Some (policies !! i)
     ∧ assert (bool_decide (i < length policies)%nat) s = Returns tt s
     ∧ ∀ s', plat_get_image_source i dh sp s ≠ Halts AssertionFailed s').
Proof.
  split.
  - intros Hi. pose proof (lookup_ge_None_2 _ _ Hi) as Hnone.
    split; [done |].
    unfold plat_get_image_source, assert. cbn.
    rewrite bool_decide_eq_false_2 by lia. rewrite Hnone.
    destruct ENABLE_ASSERTIONS; cbn; split; eauto; done.
  - intros Hi. split; [by apply lookup_lt_is_Some_2 |].
    split; [by apply assert_in_range_run |].
    intros s'. unfold plat_get_image_source. cbn.
    rewrite assert_in_range_run by done.
    destruct (policies !! i) as [p |] eqn:Hp; cbn; [| done].
    destruct (check p) as [f |] eqn:Hf; cbn; [| done].
    destruct (check_is_io_dev_init p f (policies_shape _ _ Hp) Hf)
      as (slot & Hslot & Hinit).
    rewrite Hinit, io_dev_init_run. cbn.
    destruct (_ =? 0); cbn; [by rewrite Hslot | done].
Qed.

End Resolver.

(** ** Reasoning about what a computation leaves behind *)

Section Frames.

Context {P : platform_def} {W : Type} {B : io_backend W}.

Lemma emitted_preorder Q : PreOrder (emitted (W := W) Q).
Proof.
  split.
  - intros s. exists []. by rewrite app_nil_r.
  - intros s1 s2 s3 (e1 & H1 & F1) (e2 & H2 & F2). exists (e1 ++ e2).
    rewrite H2, H1, app_assoc. split; [done | by apply Forall_app].
Qed.

Lemma emitted_nil Q (s s' : state W) :
  trace s' = trace s → emitted Q s s'.
Proof. intros H. exists []. by rewrite app_nil_r. Qed.

Lemma emitted_one Q (s : state W) e :
  Q e → emitted Q s (with_trace (trace s ++ [e]) s).
Proof. intros He. exists [e]. split; [done | by apply Forall_singleton]. Qed.

Global Instance emitted_frame Q : Frame (emitted (W := W) Q) :=
  {| frame_allowed := Q;
     frame_slot := fun _ => True;
     frame_preorder := emitted_preorder Q;
     frame_world s w := emitted_nil Q s (with_world w s) eq_refl;
     frame_handle s p v _ := emitted_nil Q s (with_handle p v s) eq_refl;
     frame_connector s p v := emitted_nil Q s (with_connector p v s) eq_refl;
     frame_emit := emitted_one Q |}.

Lemma same_dev_info_preorder : PreOrder (same_dev_info (W := W)).
Proof.
  split; unfold same_dev_info; [done |].
  intros s1 s2 s3 H1 H2. by rewrite H2.
Qed.

Global Instance same_dev_info_frame : Frame (same_dev_info (W := W)) :=
  {| frame_allowed := fun _ => True;
     frame_slot := fun _ => True;
     frame_preorder := same_dev_info_preorder;
     frame_world s w := eq_refl;
     frame_handle s p v _ := eq_refl;
     frame_connector s p v := eq_refl;
     frame_emit s e _ := eq_refl |}.

Lemma same_handle_preorder p : PreOrder (same_handle (W := W) p).
Proof.
  split; unfold same_handle; [done |].
  intros s1 s2 s3 H1 H2. by rewrite H2.
Qed.

Lemma same_handle_store p (s : state W) p' v :
  p' ≠ p → same_handle p s (with_handle p' v s).
Proof. unfold same_handle. by destruct p, p'. Qed.

Global Instance same_handle_frame p : Frame (same_handle (W := W) p) :=
  {| frame_allowed := fun _ => True;
     frame_slot := fun p' => p' ≠ p;
     frame_preorder := same_handle_preorder p;
     frame_world s w := ltac:(by destruct p);
     frame_handle s p' v := same_handle_store p s p' v;
     frame_connector s p' v := ltac:(by destruct p);
     frame_emit s e _ := ltac:(by destruct p) |}.

Section Rules.

Context (R : relation (state W)) `{!Frame R}.

Lemma respects_ret {A} (a : A) : respects R (ret a).
Proof. intros s. reflexivity. Qed.

Lemma respects_halt {A} h : respects R (halt (A := A) h).
Proof. intros s. reflexivity. Qed.

Lemma respects_get {A} (f : state W → A) : respects R (get f).
Proof. intros s. reflexivity. Qed.

Lemma respects_bind {A A'} (m : M W A) (k : A → M W A') :
  respects R m → (∀ a, respects R (k a)) → respects R (bind m k).
Proof.
  intros Hm Hk s. specialize (Hm s). cbn.
  destruct (m s) as [a s' | h s']; cbn in *; [| done].
  etransitivity; [exact Hm | apply Hk].
Qed.

Lemma respects_emit e : frame_allowed e → respects R (emit e).
Proof. intros He s. by apply frame_emit. Qed.

Lemma respects_set_world w : respects R (set_world w).
Proof. intros s. apply frame_world. Qed.

Lemma respects_store_handle p v :
  frame_slot p → respects R (store_handle p v).
Proof. intros Hp s. by apply frame_handle. Qed.

Lemma respects_store_connector p v : respects R (store_connector p v).
Proof. intros s. apply frame_connector. Qed.

Lemma respects_assert c : respects R (assert c).
Proof. unfold assert. intros s. destruct ENABLE_ASSERTIONS, c; reflexivity. Qed.

Lemma respects_panic {A} : respects R (panic (A := A)).
Proof. apply respects_halt. Qed.

Lemma respects_register_io_dev d p :
  (∀ rc con, frame_allowed (Call_register_io_dev d p rc con)) →
  respects R (register_io_dev d p).
Proof.
  intros HQ. unfold register_io_dev.
  apply respects_bind; [apply respects_get | intros old].
  apply respects_bind; [apply respects_get | intros w].
  destruct (be_register_io_dev d old w) as [[rc con] w'].
  repeat (apply respects_bind; [| intros ?]);
    auto using respects_set_world, respects_store_connector, respects_emit,
      respects_ret.
Qed.

Lemma respects_io_dev_open c sp p :
  frame_slot p →
  (∀ rc h, frame_allowed (Call_io_dev_open c sp p rc h)) →
  respects R (io_dev_open c sp p).
Proof.
  intros Hp HQ. unfold io_dev_open.
  apply respects_bind; [apply respects_get | intros old].
  apply respects_bind; [apply respects_get | intros w].
  destruct (be_io_dev_open c sp old w) as [[rc h] w'].
  repeat (apply respects_bind; [| intros ?]);
    auto using respects_set_world, respects_store_handle, respects_emit,
      respects_ret.
Qed.

Lemma respects_io_dev_close h :
  (∀ rc, frame_allowed (Call_io_dev_close h rc)) → respects R (io_dev_close h).
Proof.
  intros HQ. unfold io_dev_close.
  apply respects_bind; [apply respects_get | intros w].
  destruct (be_io_dev_close h w) as [rc w'].
  repeat (apply respects_bind; [| intros ?]);
    auto using respects_set_world, respects_emit, respects_ret.
Qed.

Lemma respects_stm32_sdmmc2_mmc_init params :
  (∀ rc, frame_allowed (Call_stm32_sdmmc2_mmc_init params rc)) →
  respects R (stm32_sdmmc2_mmc_init params).
Proof.
  intros HQ. unfold stm32_sdmmc2_mmc_init.
  apply respects_bind; [apply respects_get | intros w].
  destruct (be_stm32_sdmmc2_mmc_init params w) as [rc w'].
  repeat (apply respects_bind; [| intros ?]);
    auto using respects_set_world, respects_emit, respects_ret.
Qed.

Lemma respects_partition_init id :
  frame_allowed (Call_partition_init id) → respects R (partition_init id).
Proof.
  intros HQ. unfold partition_init.
  repeat (apply respects_bind; [| intros ?]);
    auto using respects_get, respects_set_world, respects_emit.
Qed.

Lemma respects_get_partition_entry nm :
  (∀ entry, frame_allowed (Call_get_partition_entry nm entry)) →
  respects R (get_partition_entry nm).
Proof.
  intros HQ. unfold get_partition_entry.
  repeat (apply respects_bind; [| intros ?]);
    auto using respects_get, respects_emit, respects_ret.
Qed.

Lemma respects_stm32_sdmmc2_mmc_get_device_size :
  (∀ size, frame_allowed (Call_stm32_sdmmc2_mmc_get_device_size size)) →
  respects R stm32_sdmmc2_mmc_get_device_size.
Proof.
  intros HQ. unfold stm32_sdmmc2_mmc_get_device_size.
  repeat (apply respects_bind; [| intros ?]);
    auto using respects_get, respects_emit, respects_ret.
Qed.

Lemma respects_for_idx body n first :
  (∀ idx, respects R (body idx)) → respects R (for_idx n first body).
Proof.
  intros Hbody. revert first.
  induction n as [| n IH]; intros first; cbn [for_idx].
  - apply respects_ret.
  - apply respects_bind; [apply Hbody | intros _; apply IH].
Qed.

End Rules.

Lemma respects_emitted_set_dev_info Q d :
  respects (emitted Q) (set_dev_info (W := W) d).
Proof. intros s. exists []. by rewrite app_nil_r. Qed.

Lemma respects_same_handle_set_dev_info p d :
  respects (same_handle p) (set_dev_info (W := W) d).
Proof. intros s. by destruct p. Qed.

Lemma respects_returns {A} (R : relation (state W)) (m : M W A) s a s' :
  respects R m → m s = Returns a s' → R s s'.
Proof. intros Hm Hrun. specialize (Hm s). by rewrite Hrun in Hm. Qed.

End Frames.

Create HintDb respects.

#[export] Hint Resolve respects_ret respects_halt respects_get respects_emit
  respects_set_world respects_store_handle respects_store_connector
  respects_assert respects_panic respects_register_io_dev respects_io_dev_open
  respects_io_dev_close respects_stm32_sdmmc2_mmc_init respects_partition_init
  respects_get_partition_entry respects_stm32_sdmmc2_mmc_get_device_size
  respects_emitted_set_dev_info respects_same_handle_set_dev_info : respects.

#[export] Hint Extern 1 (Frame _) => apply _ : respects.
#[export] Hint Extern 1 (frame_allowed _) =>
  cbn; first [reflexivity | exact I] : respects.
#[export] Hint Extern 1 (frame_slot _) =>
  cbn; first [exact I | discriminate] : respects.

(** Closes the leaves of a computation with the rules above, and takes
    binds, loops and branches apart. *)
Ltac respects_tac :=
  repeat first
    [ progress intros
    | solve [ eauto with respects ]
    | apply respects_bind
    | apply respects_for_idx
    | match goal with
      | |- respects _ (if ?b then _ else _) => destruct b
      | |- respects _ (let '(_, _) := (if ?b then _ else _) in _) => destruct b
      | |- respects _ (match ?x with _ => _ end) => destruct x
      end ].

Section Blocks.

Context {P : platform_def} {W : Type} {B : io_backend W}.

Implicit Types (s : state W) (ctx : boot_api_context_t).

(** No block stores a session-bearing event but the two that open the
    storage handle. *)
Lemma io_setup_dummy_no_session ctx :
  respects (emitted (fun e => session_event e = false)) (io_setup_dummy ctx).
Proof.
  unfold io_setup_dummy, print_boot_device, register_io_dev_dummy, INFO, ERROR.
  respects_tac.
Qed.

Lemma io_setup_sdmmc_no_session ctx :
  respects (emitted (fun e => session_event e = false)) (io_setup_sdmmc ctx).
Proof.
  unfold io_setup_sdmmc, io_setup_reg_base, dmbsy, WARN, ERROR.
  respects_tac.
Qed.

Lemma io_setup_part_offsets_no_session :
  respects (emitted (fun e => session_event e = false)) io_setup_part_offsets.
Proof.
  unfold io_setup_part_offsets, io_setup_part_offset, update_part, ERROR.
  respects_tac.
Qed.

Lemma io_setup_discovery_no_container :
  respects (emitted (fun e => container_event e = false)) io_setup_discovery.
Proof.
  unfold io_setup_discovery, io_setup_dummy, print_boot_device,
    io_setup_sdmmc, io_setup_reg_base, io_setup_partition_table,
    register_io_dev_dummy, register_io_dev_block, set_dev_info, dmbsy,
    INFO, WARN, ERROR.
  respects_tac.
Qed.

(** Every block only adds to the trace. *)
Lemma io_setup_partition_table_grows :
  respects (emitted (fun _ => True)) io_setup_partition_table.
Proof.
  unfold io_setup_partition_table, register_io_dev_block.
  respects_tac.
Qed.

Lemma io_setup_part_offsets_grows :
  respects (emitted (fun _ => True)) io_setup_part_offsets.
Proof.
  unfold io_setup_part_offsets, io_setup_part_offset, update_part, ERROR.
  respects_tac.
Qed.

Lemma io_setup_reopen_grows :
  respects (emitted (fun _ => True)) io_setup_reopen.
Proof.
  unfold io_setup_reopen, register_io_dev_mmc, register_io_dev_stm32image.
  respects_tac.
Qed.

Lemma io_setup_reopen_same_dev_info : respects same_dev_info io_setup_reopen.
Proof.
  unfold io_setup_reopen, register_io_dev_mmc, register_io_dev_stm32image.
  respects_tac.
Qed.

(** Only the first block writes the handle of the fixed-offset device, and
    the SDMMC block and the loop open nothing. *)
Lemma io_setup_sdmmc_same_handle ctx p :
  respects (same_handle p) (io_setup_sdmmc ctx).
Proof.
  unfold io_setup_sdmmc, io_setup_reg_base, dmbsy, WARN, ERROR.
  respects_tac.
Qed.

Lemma io_setup_partition_table_same_dummy :
  respects (same_handle dummy_dev_handle_p) io_setup_partition_table.
Proof.
  unfold io_setup_partition_table, register_io_dev_block.
  respects_tac.
Qed.

Lemma io_setup_part_offsets_same_handle p :
  respects (same_handle p) io_setup_part_offsets.
Proof.
  unfold io_setup_part_offsets, io_setup_part_offset, update_part, ERROR.
  respects_tac.
Qed.

Lemma io_setup_reopen_same_dummy :
  respects (same_handle dummy_dev_handle_p) io_setup_reopen.
Proof.
  unfold io_setup_reopen, register_io_dev_mmc, register_io_dev_stm32image.
  respects_tac.
Qed.

Lemma io_setup_sdmmc_opens_nothing ctx p :
  respects (emitted (fun e => opens p e = false)) (io_setup_sdmmc ctx).
Proof.
  unfold io_setup_sdmmc, io_setup_reg_base, dmbsy, WARN, ERROR.
  respects_tac.
Qed.

Lemma io_setup_part_offsets_opens_nothing p :
  respects (emitted (fun e => opens p e = false)) io_setup_part_offsets.
Proof.
  unfold io_setup_part_offsets, io_setup_part_offset, update_part, ERROR.
  respects_tac.
Qed.

(** *** Sequencing *)

Lemma bind_returns_inv {A A'} (m : M W A) (k : A → M W A') s b s' :
  bind m k s = Returns b s' →
  ∃ a s1, m s = Returns a s1 ∧ k a s1 = Returns b s'.
Proof. cbn. destruct (m s) as [a s1 | h s1]; [eauto | done]. Qed.

Lemma bind_run {A A'} (m : M W A) (k : A → M W A') s a s1 :
  m s = Returns a s1 → bind m k s = k a s1.
Proof. cbn. by intros ->. Qed.

Lemma bind_halts {A A'} (m : M W A) (k : A → M W A') s h s1 :
  m s = Halts h s1 → bind m k s = Halts h s1.
Proof. cbn. by intros ->. Qed.

Lemma final_trace_bind {A A'} (m : M W A) (k : A → M W A') s :
  (∀ a, respects (emitted (fun _ => True)) (k a)) →
  ∃ post, trace (final_state (bind m k s)) = trace (final_state (m s)) ++ post.
Proof.
  intros Hk. cbn. destruct (m s) as [a s1 | h s1]; cbn.
  - destruct (Hk a s1) as (post & Hpost & _). eauto.
  - exists []. by rewrite app_nil_r.
Qed.

(** *** The boot interface *)

Lemma storage_interface_kind sel :
  storage_interface sel = true ↔ is_Some (interface_kind_of sel).
Proof.
  unfold storage_interface, interface_kind_of.
  destruct (sel =? BOOT_API_CTX_BOOT_INTERFACE_SEL_FLASH_SD),
    (sel =? BOOT_API_CTX_BOOT_INTERFACE_SEL_FLASH_EMMC); cbn;
    split; (done || eauto || by intros [? [=]]).
Qed.

Lemma storage_interface_none sel :
  storage_interface sel = false ↔ interface_kind_of sel = None.
Proof.
  unfold storage_interface, interface_kind_of.
  destruct (sel =? BOOT_API_CTX_BOOT_INTERFACE_SEL_FLASH_SD),
    (sel =? BOOT_API_CTX_BOOT_INTERFACE_SEL_FLASH_EMMC); cbn; by split.
Qed.

Lemma print_boot_device_unsupported ctx s :
  interface_kind_of (boot_interface_selected ctx) = None →
  print_boot_device ctx s =
    Halts Panic
      (with_trace (trace s ++ [Log LOG_ERROR "Boot interface not found\n" []])
         s).
Proof.
  unfold interface_kind_of, print_boot_device.
  destruct (_ =? BOOT_API_CTX_BOOT_INTERFACE_SEL_FLASH_SD); [done |].
  destruct (_ =? BOOT_API_CTX_BOOT_INTERFACE_SEL_FLASH_EMMC); [done |].
  done.
Qed.

Lemma print_boot_device_returns ctx s s' :
  print_boot_device ctx s = Returns tt s' →
  storage_interface (boot_interface_selected ctx) = true.
Proof.
  intros Hrun. apply not_false_iff_true. intros Hno.
  apply storage_interface_none in Hno.
  by rewrite (print_boot_device_unsupported _ _ Hno) in Hrun.
Qed.

Lemma io_setup_unsupported s :
  interface_kind_of (boot_interface_selected (boot_context s)) = None →
  stm32mp1_io_setup s =
    Halts Panic
      (with_trace (trace s ++ [Log LOG_ERROR "Boot interface not found\n" []])
         s).
Proof.
  intros Hno. unfold stm32mp1_io_setup, io_setup_dummy.
  cbn. by rewrite (print_boot_device_unsupported _ _ Hno).
Qed.

End Blocks.

(** ** stm32mp1_io_setup *)

(** Runs the calls into the collaborators that stand in the goal or in a
    hypothesis, naming their results. *)
Ltac run_calls :=
  repeat (cbn in *;
    match goal with
    | |- context [be_register_io_dev ?d ?o ?w] =>
        destruct (be_register_io_dev d o w) as [[? ?] ?]
    | |- context [be_io_dev_open ?c ?sp ?o ?w] =>
        destruct (be_io_dev_open c sp o w) as [[? ?] ?]
    | |- context [be_io_dev_close ?h ?w] =>
        destruct (be_io_dev_close h w) as [? ?]
    | |- context [be_stm32_sdmmc2_mmc_init ?p ?w] =>
        destruct (be_stm32_sdmmc2_mmc_init p w) as [? ?]
    | |- context [if ?b then _ else _] => destruct b
    end);
  cbn in *.

Section Setup.

Context {P : platform_def} {W : Type} {B : io_backend W}.

Implicit Types (s : state W) (ctx : boot_api_context_t).

Lemma io_setup_reg_base_run ctx k s :
  interface_kind_of (boot_interface_selected ctx) = Some k →
  BOOT_API_CTX_BOOT_INTERFACE_SEL_FLASH_SD
    ≠ BOOT_API_CTX_BOOT_INTERFACE_SEL_FLASH_EMMC →
  ∃ s', io_setup_reg_base ctx
          (if boot_interface_selected ctx
                =? BOOT_API_CTX_BOOT_INTERFACE_SEL_FLASH_EMMC
           then STM32MP1_SDMMC2_BASE else STM32MP1_SDMMC1_BASE) s
        = Returns (documented_reg_base k (boot_interface_instance ctx)) s'
    ∧ trace s' = trace s ++ fallback_warning (boot_interface_instance ctx)
    ∧ world s' = world s.
Proof.
  unfold interface_kind_of, io_setup_reg_base, documented_reg_base,
    fallback_warning, recognized_instance.
  intros Hk Hne.
  assert (Hdef : (if boot_interface_selected ctx
                       =? BOOT_API_CTX_BOOT_INTERFACE_SEL_FLASH_EMMC
                  then STM32MP1_SDMMC2_BASE else STM32MP1_SDMMC1_BASE)
                 = match k with
                   | EMMC => STM32MP1_SDMMC2_BASE
                   | SD => STM32MP1_SDMMC1_BASE
                   end).
  { destruct (Z.eqb_spec (boot_interface_selected ctx)
                BOOT_API_CTX_BOOT_INTERFACE_SEL_FLASH_SD) as [Hsd | Hsd].
    - injection Hk as <-. rewrite Hsd.
      by destruct (Z.eqb_spec BOOT_API_CTX_BOOT_INTERFACE_SEL_FLASH_SD
                     BOOT_API_CTX_BOOT_INTERFACE_SEL_FLASH_EMMC).
    - destruct (_ =? BOOT_API_CTX_BOOT_INTERFACE_SEL_FLASH_EMMC); [| done].
      by injection Hk as <-. }
  rewrite Hdef.
  destruct (boot_interface_instance ctx) as [| [[p | p |] | [p | p |] |] | p];
    cbn; eexists; (split; [reflexivity |]); cbn; by rewrite ?app_nil_r.
Qed.

Lemma documented_dev_type_run ctx k :
  interface_kind_of (boot_interface_selected ctx) = Some k →
  BOOT_API_CTX_BOOT_INTERFACE_SEL_FLASH_SD
    ≠ BOOT_API_CTX_BOOT_INTERFACE_SEL_FLASH_EMMC →
  (if boot_interface_selected ctx
        =? BOOT_API_CTX_BOOT_INTERFACE_SEL_FLASH_EMMC
   then MMC_IS_EMMC else MMC_IS_SD) = documented_dev_type k.
Proof.
  unfold interface_kind_of. intros Hk Hne.
  destruct (Z.eqb_spec (boot_interface_selected ctx)
              BOOT_API_CTX_BOOT_INTERFACE_SEL_FLASH_SD) as [Hsd | Hsd].
  - injection Hk as <-. rewrite Hsd.
    by destruct (Z.eqb_spec BOOT_API_CTX_BOOT_INTERFACE_SEL_FLASH_SD
                   BOOT_API_CTX_BOOT_INTERFACE_SEL_FLASH_EMMC).
  - destruct (_ =? BOOT_API_CTX_BOOT_INTERFACE_SEL_FLASH_EMMC); [| done].
    by injection Hk as <-.
Qed.

(** What the SDMMC block shows, however it ends: the barrier, the warning
    when the instance is not one of 1, 2, 3, then the driver initialized
    with the documented base and media type. *)
Lemma io_setup_sdmmc_trace ctx k s :
  interface_kind_of (boot_interface_selected ctx) = Some k →
  BOOT_API_CTX_BOOT_INTERFACE_SEL_FLASH_SD
    ≠ BOOT_API_CTX_BOOT_INTERFACE_SEL_FLASH_EMMC →
  ∃ rc post,
    trace (final_state (io_setup_sdmmc ctx s)) =
      trace s ++ [Call_dmbsy]
        ++ fallback_warning (boot_interface_instance ctx)
        ++ [Call_stm32_sdmmc2_mmc_init
              {| reg_base :=
                   documented_reg_base k (boot_interface_instance ctx);
                 device_info :=
                   {| mmc_dev_type := documented_dev_type k |} |} rc]
        ++ post.
Proof.
  intros Hk Hne. unfold io_setup_sdmmc.
  rewrite <- (documented_dev_type_run ctx k Hk Hne).
  set (s0 := with_trace (trace s ++ [Call_dmbsy]) s).
  destruct (io_setup_reg_base_run ctx k s0 Hk Hne) as (s1 & Hbase & Ht1 & Hw1).
  assert (Hrun : ∀ A (k' : unit → M W A), bind dmbsy k' s = k' tt s0) by done.
  rewrite Hrun.
  destruct (boot_interface_selected ctx
              =? BOOT_API_CTX_BOOT_INTERFACE_SEL_FLASH_EMMC);
    rewrite (bind_run _ _ _ _ _ Hbase); unfold stm32_sdmmc2_mmc_init;
    cbn; destruct (be_stm32_sdmmc2_mmc_init _ _) as [rc w']; cbn;
    exists rc; rewrite Ht1; subst s0; cbn;
    (destruct (rc =? 0); cbn;
     [exists [] | eexists [_]]; by rewrite <- ?app_assoc).
Qed.

(** *** The blocks in a run that returns *)

Lemma io_setup_partition_table_returns s s' :
  io_setup_partition_table s = Returns tt s' →
  ∃ rcb cb rco hb rcc size,
    trace s' = trace s ++
      [Call_register_io_dev IO_BLOCK mmc_dev_con_p rcb cb;
       Call_io_dev_open cb addr_mmc_block_dev_spec storage_dev_handle_p rco hb;
       Call_partition_init GPT_IMAGE_ID;
       Call_io_dev_close hb rcc;
       Call_stm32_sdmmc2_mmc_get_device_size size].
Proof.
  unfold io_setup_partition_table, register_io_dev_block, register_io_dev,
    io_dev_open, partition_init, io_dev_close,
    stm32_sdmmc2_mmc_get_device_size, assert, panic.
  run_calls; intros [= <-]; cbn; rewrite <- ?app_assoc; cbn;
    do 6 eexists; reflexivity.
Qed.

Lemma io_setup_reopen_returns s s' :
  io_setup_reopen s = Returns tt s' →
  ∃ rcm cm rcs hs rci ci rco hi,
    trace s' = trace s ++
      [Call_register_io_dev IO_MMC mmc_dev_con_p rcm cm;
       Call_io_dev_open cm 0 storage_dev_handle_p rcs hs;
       Call_register_io_dev IO_STM32IMAGE stm32image_dev_con_p rci ci;
       Call_io_dev_open ci addr_stm32image_dev_info_spec image_dev_handle_p
         rco hi]
    ∧ storage_dev_handle s' = hs
    ∧ image_dev_handle s' = hi.
Proof.
  unfold io_setup_reopen, register_io_dev_mmc, register_io_dev_stm32image,
    register_io_dev, io_dev_open, assert.
  run_calls; intros [= <-]; cbn; rewrite <- ?app_assoc; cbn;
    do 8 eexists; split_and!; reflexivity.
Qed.

(** *** The loop over the named images *)

Lemma io_setup_part_offsets_missing s part :
  part_info (stm32image_dev_info_spec s) !! 0%nat = Some part →
  be_get_partition_entry (name part) (world s) = None →
  ∃ s', io_setup_part_offsets s = Halts Panic s'
    ∧ trace s' = trace s ++
        [Call_get_partition_entry (name part) None;
         Log LOG_ERROR "Partition %s not found\n" [ArgStr (name part)]].
Proof.
  intros Hpart Hnone.
  unfold io_setup_part_offsets, io_setup_part_offset, get_partition_entry.
  cbn. rewrite Hpart. cbn. rewrite Hnone. cbn.
  eexists. split; [reflexivity |]. cbn. by rewrite <- app_assoc.
Qed.


(** *** The whole of setup *)

Lemma stm32mp1_io_setup_storage s s0 :
  storage_interface (boot_interface_selected (boot_context s)) = true →
  io_setup_dummy (boot_context s) s = Returns tt s0 →
  stm32mp1_io_setup s =
    (io_setup_sdmmc (boot_context s) ;;
     io_setup_partition_table ;;
     io_setup_part_offsets ;;
     io_setup_reopen)%io s0.
Proof.
  intros Hsel Hdummy. unfold stm32mp1_io_setup.
  rewrite (bind_run (get boot_context) _ s (boot_context s) s eq_refl).
  by rewrite (bind_run _ _ _ _ _ Hdummy), Hsel.
Qed.

Lemma io_setup_dummy_returns ctx s s0 :
  io_setup_dummy ctx s = Returns tt s0 →
  storage_interface (boot_interface_selected ctx) = true.
Proof.
  unfold io_setup_dummy. intros Hrun.
  apply bind_returns_inv in Hrun as ([] & s1 & Hprint & _).
  by eapply print_boot_device_returns.
Qed.

Lemma stm32mp1_io_setup_after_discovery s s1 :
  io_setup_discovery s = Returns tt s1 →
  storage_interface (boot_interface_selected (boot_context s)) = true
  ∧ stm32mp1_io_setup s = (io_setup_part_offsets ;; io_setup_reopen)%io s1.
Proof.
  unfold io_setup_discovery. intros Hrun.
  rewrite (bind_run (get boot_context) _ s (boot_context s) s eq_refl) in Hrun.
  apply bind_returns_inv in Hrun as ([] & s0 & Hdummy & Hrun).
  apply bind_returns_inv in Hrun as ([] & s0' & Hsdmmc & Htable).
  pose proof (io_setup_dummy_returns _ _ _ Hdummy) as Hsel.
  split; [done |].
  rewrite (stm32mp1_io_setup_storage _ _ Hsel Hdummy).
  by rewrite (bind_run _ _ _ _ _ Hsdmmc), (bind_run _ _ _ _ _ Htable).
Qed.

(** *** The monitor of the storage sessions *)

Lemma run_monitor_halted evs :
  foldl (fun om e => om ≫= fun m' => monitor_step m' e) None evs = None.
Proof. by induction evs. Qed.

Lemma run_monitor_app m evs1 evs2 :
  run_monitor m (evs1 ++ evs2) =
    run_monitor m evs1 ≫= fun m' => run_monitor m' evs2.
Proof.
  unfold run_monitor. rewrite foldl_app.
  destruct (foldl _ (Some m) evs1); cbn; [done | apply run_monitor_halted].
Qed.

Lemma monitor_step_other m e :
  session_event e = false → monitor_step m e = Some m.
Proof. destruct e as [| | d [] | c sp [] | | | | | |]; by cbn. Qed.

Lemma run_monitor_others m evs :
  Forall (fun e => session_event e = false) evs → run_monitor m evs = Some m.
Proof.
  induction 1 as [| e evs He _ IH]; [done |].
  change (e :: evs) with ([e] ++ evs). rewrite run_monitor_app.
  unfold run_monitor at 1. cbn. by rewrite monitor_step_other.
Qed.

(** *** The handles setup leaves *)

Lemma assert_returns c s s' : assert c s = Returns tt s' → s' = s.
Proof. unfold assert. destruct ENABLE_ASSERTIONS, c; cbn; congruence. Qed.

Lemma io_dev_open_returns c sp p s rc s' :
  io_dev_open c sp p s = Returns rc s' →
  trace s' = trace s ++ [Call_io_dev_open c sp p rc (load_handle p s')].
Proof.
  unfold io_dev_open. cbn.
  destruct (be_io_dev_open c sp (load_handle p s) (world s)) as [[rc' h] w'].
  cbn. intros [= <- <-]. by destruct p.
Qed.

Lemma io_setup_dummy_returns_handle ctx s s0 :
  io_setup_dummy ctx s = Returns tt s0 →
  ∃ pre c sp rc,
    trace s0 = trace s ++ pre
      ++ [Call_io_dev_open c sp dummy_dev_handle_p rc (dummy_dev_handle s0)].
Proof.
  unfold io_setup_dummy. intros Hrun.
  apply bind_returns_inv in Hrun as ([] & sa & Hprint & Hrun).
  apply bind_returns_inv in Hrun as ([] & sb & Hinfo & Hrun).
  apply bind_returns_inv in Hrun as (rc0 & sc & Hreg & Hrun).
  apply bind_returns_inv in Hrun as ([] & sd & Hassert & Hrun).
  apply assert_returns in Hassert as ->.
  apply bind_returns_inv in Hrun as (con & ? & [= <- <-] & Hrun).
  apply bind_returns_inv in Hrun as (spec & ? & [= <- <-] & Hrun).
  apply bind_returns_inv in Hrun as (rc & se & Hopen & Hassert).
  apply assert_returns in Hassert as ->.
  apply io_dev_open_returns in Hopen.
  assert (Hpre : emitted (fun _ => True) s sc).
  { etransitivity; [| etransitivity].
    - eapply (respects_returns _ (print_boot_device ctx)); [| exact Hprint].
      unfold print_boot_device, INFO, ERROR. respects_tac.
    - eapply respects_returns; [| exact Hinfo]. unfold INFO. respects_tac.
    - eapply respects_returns; [| exact Hreg].
      unfold register_io_dev_dummy. respects_tac. }
  destruct Hpre as (pre & Hpre & _).
  exists pre, (dummy_dev_con sc), (dummy_dev_spec sc), rc.
  by rewrite Hopen, Hpre, <- app_assoc.
Qed.

Lemma last_opened_app p evs1 evs2 :
  last_opened p (evs1 ++ evs2) =
    match last_opened p evs2 with
    | Some h => Some h
    | None => last_opened p evs1
    end.
Proof.
  induction evs1 as [| e evs1 IH]; cbn.
  - by destruct (last_opened p evs2).
  - rewrite IH. by destruct (last_opened p evs2).
Qed.

Lemma last_opened_none p evs :
  Forall (fun e => opens p e = false) evs → last_opened p evs = None.
Proof.
  induction 1 as [| e evs He _ IH]; cbn; [done |].
  rewrite IH. destruct e; cbn in He; try done. by rewrite He.
Qed.

(** After a run of setup that returns, each handle variable holds what the
    last opening into it left there. *)
Lemma io_setup_handles s s' :
  stm32mp1_io_setup s = Returns tt s' →
  ∃ evs, trace s' = trace s ++ evs
    ∧ ∀ p, last_opened p evs = Some (load_handle p s').
Proof.
  intros Hrun. unfold stm32mp1_io_setup in Hrun.
  rewrite (bind_run (get boot_context) _ s (boot_context s) s eq_refl) in Hrun.
  apply bind_returns_inv in Hrun as ([] & s0 & Hdummy & Hrun).
  rewrite (io_setup_dummy_returns _ _ _ Hdummy) in Hrun.
  apply bind_returns_inv in Hrun as ([] & s1 & Hsdmmc & Hrun).
  apply bind_returns_inv in Hrun as ([] & s2 & Htable & Hrun).
  apply bind_returns_inv in Hrun as ([] & s3 & Hoffsets & Hreopen).
  destruct (io_setup_dummy_returns_handle _ _ _ Hdummy)
    as (pre & c & sp & rc & He0).
  destruct (respects_returns _ _ _ _ _
              (io_setup_sdmmc_opens_nothing _ dummy_dev_handle_p) Hsdmmc)
    as (e1 & He1 & F1).
  destruct (io_setup_partition_table_returns _ _ Htable)
    as (rcb & cb & rco & hb & rcc & size & He2).
  destruct (respects_returns _ _ _ _ _
              (io_setup_part_offsets_opens_nothing dummy_dev_handle_p)
              Hoffsets)
    as (e3 & He3 & F3).
  destruct (io_setup_reopen_returns _ _ Hreopen)
    as (rcm & cm & rcs & hs & rci & ci & rcoi & hi & He4 & Hhs & Hhi).
  assert (Hd : dummy_dev_handle s' = dummy_dev_handle s0).
  { transitivity (dummy_dev_handle s3);
      [exact (respects_returns _ _ _ _ _ io_setup_reopen_same_dummy Hreopen) |].
    transitivity (dummy_dev_handle s2);
      [exact (respects_returns _ _ _ _ _
                (io_setup_part_offsets_same_handle dummy_dev_handle_p)
                Hoffsets) |].
    transitivity (dummy_dev_handle s1);
      [exact (respects_returns _ _ _ _ _
                io_setup_partition_table_same_dummy Htable) |].
    exact (respects_returns _ _ _ _ _
             (io_setup_sdmmc_same_handle _ dummy_dev_handle_p) Hsdmmc). }
  eexists. split.
  { rewrite He4, He3, He2, He1, He0. rewrite <- !app_assoc. reflexivity. }
  intros p. rewrite !last_opened_app.
  destruct p; cbn; [| by rewrite Hhi | by rewrite Hhs].
  by rewrite (last_opened_none _ _ F3), (last_opened_none _ _ F1), Hd.
Qed.

(** *** The claims about setup *)

(** C10: with a boot interface that is neither SD nor EMMC,
    [print_boot_device] panics, and so does [stm32mp1_io_setup] in the
    same state: the only event is the error message, no device has been
    registered or opened, the handles and connectors are as they were, and
    the resolver sequenced after setup never runs, whatever the
    identifier. *)
Theorem io_setup_unsupported_panics s :
  interface_kind_of (boot_interface_selected (boot_context s)) = None →
  ∃ s' evs,
    print_boot_device (boot_context s) s = Halts Panic s'
    ∧ stm32mp1_io_setup s = Halts Panic s'
    ∧ trace s' = trace s ++ evs
    ∧ Forall (fun e => device_event e = false) evs
    ∧ same_variables s s'
    ∧ ∀ image_id dh sp,
        bind stm32mp1_io_setup
          (fun _ => plat_get_image_source image_id dh sp) s
        = Halts Panic s'.
Proof.
  intros Hno. eexists. eexists.
  split; [by apply print_boot_device_unsupported |].
  split; [by apply io_setup_unsupported |].
  split; [reflexivity |].
  split; [by repeat constructor |].
  split; [by repeat split; intros [] |].
  intros image_id dh sp. apply bind_halts. by apply io_setup_unsupported.
Qed.

(** C2, amended: with a boot interface that is neither SD nor EMMC, setup
    reports that the boot interface was not found and halts on [panic]; it
    has made no call that brings up the peripheral, and the message of the
    [default] branch of its own [switch] is not among its events. *)
Theorem io_setup_unsupported_halts s :
  storage_interface (boot_interface_selected (boot_context s)) = false →
  ∃ s' evs,
    stm32mp1_io_setup s = Halts Panic s'
    ∧ trace s' = trace s ++ evs
    ∧ Log LOG_ERROR "Boot interface not found\n" [] ∈ evs
    ∧ Forall (fun e => peripheral_event e = false) evs
    ∧ ∀ args, Log LOG_ERROR "Boot interface %d not supported\n" args ∉ evs.
Proof.
  intros Hno. apply storage_interface_none in Hno.
  eexists. eexists.
  split; [by apply io_setup_unsupported |].
  split; [reflexivity |].
  split; [by apply list_elem_of_singleton |].
  split; [by repeat constructor |].
  intros args Hin. by apply list_elem_of_singleton in Hin.
Qed.

(** C6: once the fixed-offset device is up, setup initializes the SDMMC
    driver with the register base documented for the interface kind and
    the instance, and with the media type of the kind; the warning comes
    first exactly when the instance is none of 1, 2, 3, and does not stop
    the bring-up. *)
Theorem io_setup_reg_base_documented s s0 k :
  BOOT_API_CTX_BOOT_INTERFACE_SEL_FLASH_SD
    ≠ BOOT_API_CTX_BOOT_INTERFACE_SEL_FLASH_EMMC →
  interface_kind_of (boot_interface_selected (boot_context s)) = Some k →
  io_setup_dummy (boot_context s) s = Returns tt s0 →
  ∃ rc post,
    trace (final_state (stm32mp1_io_setup s)) =
      trace s0 ++ [Call_dmbsy]
        ++ fallback_warning (boot_interface_instance (boot_context s))
        ++ [Call_stm32_sdmmc2_mmc_init
              {| reg_base :=
                   documented_reg_base k
                     (boot_interface_instance (boot_context s));
                 device_info :=
                   {| mmc_dev_type := documented_dev_type k |} |} rc]
        ++ post.
Proof.
  intros Hne Hk Hdummy.
  assert (Hsel : storage_interface
                   (boot_interface_selected (boot_context s)) = true).
  { apply storage_interface_kind. by exists k. }
  rewrite (stm32mp1_io_setup_storage _ _ Hsel Hdummy).
  destruct (final_trace_bind (io_setup_sdmmc (boot_context s))
              (fun _ => io_setup_partition_table ;; io_setup_part_offsets ;;
                        io_setup_reopen)%io s0) as (post1 & Hpost1).
  { intros _. respects_tac;
      auto using io_setup_partition_table_grows, io_setup_part_offsets_grows,
        io_setup_reopen_grows. }
  destruct (io_setup_sdmmc_trace (boot_context s) k s0 Hk Hne)
    as (rc & post0 & Hpost0).
  exists rc, (post0 ++ post1).
  rewrite Hpost1, Hpost0. by rewrite <- !app_assoc.
Qed.

(** C5: when the partition table that setup has discovered has no entry
    for the name of one of the named images, setup halts on [panic] after
    naming the partition in an error message, and none of its events
    registers or opens the container-format device. *)
Theorem io_setup_missing_partition s s1 idx part :
  io_setup_discovery s = Returns tt s1 →
  (idx < IMG_IDX_NUM)%nat →
  part_info (stm32image_dev_info_spec s1) !! idx = Some part →
  be_get_partition_entry (name part) (world s1) = None →
  ∃ s2 evs,
    stm32mp1_io_setup s = Halts Panic s2
    ∧ trace s2 = trace s ++ evs
    ∧ Log LOG_ERROR "Partition %s not found\n" [ArgStr (name part)] ∈ evs
    ∧ Forall (fun e => container_event e = false) evs.
Proof.
  intros Hdisc Hidx Hpart Hnone.
  assert (idx = 0%nat) as -> by (unfold IMG_IDX_NUM in Hidx; lia).
  destruct (stm32mp1_io_setup_after_discovery _ _ Hdisc) as [_ ->].
  destruct (io_setup_part_offsets_missing _ _ Hpart Hnone) as (s2 & Hrun & Ht).
  destruct (io_setup_discovery_no_container s) as (evs & Hevs & Hall).
  rewrite Hdisc in Hevs. cbn in Hevs.
  exists s2, (evs ++ [Call_get_partition_entry (name part) None;
                      Log LOG_ERROR "Partition %s not found\n"
                        [ArgStr (name part)]]).
  split; [by apply bind_halts |].
  split; [by rewrite Ht, Hevs, app_assoc |].
  split; [set_solver |].
  apply Forall_app. split; [done | by repeat constructor].
Qed.


(** C4: in every run of setup that returns, the block device opened into
    the storage handle to read the partition table is closed, with the
    handle that opening gave, before the streaming connector is registered
    and opened into the same handle; no other event opens or closes the
    storage handle, so the monitor of the sessions accepts the run and
    ends in the streaming session. *)
Theorem io_setup_close_before_reopen s s' :
  stm32mp1_io_setup s = Returns tt s' →
  ∃ pre rcb cb rco hb rcc mid rcm cm rcs hs post,
    trace s' = trace s ++ pre
      ++ [Call_register_io_dev IO_BLOCK mmc_dev_con_p rcb cb;
          Call_io_dev_open cb addr_mmc_block_dev_spec storage_dev_handle_p
            rco hb;
          Call_partition_init GPT_IMAGE_ID;
          Call_io_dev_close hb rcc]
      ++ mid
      ++ [Call_register_io_dev IO_MMC mmc_dev_con_p rcm cm;
          Call_io_dev_open cm 0 storage_dev_handle_p rcs hs]
      ++ post
    ∧ Forall (fun e => session_event e = false) (pre ++ mid ++ post)
    ∧ storage_dev_handle s' = hs
    ∧ run_monitor monitor_start
        (pre
         ++ [Call_register_io_dev IO_BLOCK mmc_dev_con_p rcb cb;
             Call_io_dev_open cb addr_mmc_block_dev_spec storage_dev_handle_p
               rco hb;
             Call_partition_init GPT_IMAGE_ID;
             Call_io_dev_close hb rcc]
         ++ mid
         ++ [Call_register_io_dev IO_MMC mmc_dev_con_p rcm cm;
             Call_io_dev_open cm 0 storage_dev_handle_p rcs hs]
         ++ post)
      = Some {| mon_connector := Some IO_MMC;
                mon_session := OpenedForStreaming hs |}.
Proof.
  intros Hrun. unfold stm32mp1_io_setup in Hrun.
  rewrite (bind_run (get boot_context) _ s (boot_context s) s eq_refl) in Hrun.
  apply bind_returns_inv in Hrun as ([] & s0 & Hdummy & Hrun).
  rewrite (io_setup_dummy_returns _ _ _ Hdummy) in Hrun.
  apply bind_returns_inv in Hrun as ([] & s1 & Hsdmmc & Hrun).
  apply bind_returns_inv in Hrun as ([] & s2 & Htable & Hrun).
  apply bind_returns_inv in Hrun as ([] & s3 & Hoffsets & Hreopen).
  destruct (io_setup_dummy_no_session (boot_context s) s) as (e0 & He0 & F0).
  rewrite Hdummy in He0. cbn in He0.
  destruct (io_setup_sdmmc_no_session (boot_context s) s0)
    as (e1 & He1 & F1).
  rewrite Hsdmmc in He1. cbn in He1.
  destruct (io_setup_partition_table_returns _ _ Htable)
    as (rcb & cb & rco & hb & rcc & size & He2).
  destruct (io_setup_part_offsets_no_session s2) as (e3 & He3 & F3).
  rewrite Hoffsets in He3. cbn in He3.
  destruct (io_setup_reopen_returns _ _ Hreopen)
    as (rcm & cm & rcs & hs & rci & ci & rcoi & hi & He4 & Hhs & _).
  exists (e0 ++ e1), rcb, cb, rco, hb, rcc,
    (Call_stm32_sdmmc2_mmc_get_device_size size :: e3), rcm, cm, rcs, hs,
    [Call_register_io_dev IO_STM32IMAGE stm32image_dev_con_p rci ci;
     Call_io_dev_open ci addr_stm32image_dev_info_spec image_dev_handle_p
       rcoi hi].
  assert (Fpre : Forall (fun e => session_event e = false) (e0 ++ e1))
    by (by apply Forall_app).
  assert (Fmid : Forall (fun e => session_event e = false)
                   (Call_stm32_sdmmc2_mmc_get_device_size size :: e3))
    by (by constructor).
  pose proof (Forall_inv_tail Fmid) as F3'.
  split.
  { rewrite He4, He3, He2, He1, He0. cbn. by rewrite <- !app_assoc. }
  split.
  { repeat (apply Forall_app; split); try done. by repeat constructor. }
  split; [done |].
  rewrite run_monitor_app, (run_monitor_others _ _ Fpre). cbn.
  rewrite Z.eqb_refl. cbn.
  change (foldl _ (Some ?m) ?l) with (run_monitor m l).
  by rewrite run_monitor_app, (run_monitor_others _ _ F3').
Qed.

(** C1: for an identifier in the table whose check returns 0, the resolver
    returns 0, and the caller's memory then holds the value of the
    element's device-handle variable at [dev_handle_out] and the element's
    [image_spec] at [image_spec_out] (when the two pointers are one cell
    the handle, stored last, is what it holds): the memory is what the two
    stores in that order make of it, and nothing else of the state the
    check left is changed.  The check and the call leave the handle
    variable as it was, and when the resolver runs in the state a run of
    setup returned, the value stored is the handle the last opening into
    the variable left there during setup. *)
Theorem plat_get_image_source_success i (p : plat_io_policy) f s s1 dh sp :
  policies !! i = Some p → check p = Some f →
  f (image_spec p) s = Returns 0 s1 →
  ∃ slot s',
    dev_handle p = Some slot
    ∧ plat_get_image_source i dh sp s = Returns 0 s'
    ∧ caller_mem s' !! dh = Some (load_handle slot s')
    ∧ (sp ≠ dh → caller_mem s' !! sp = Some (image_spec p))
    ∧ caller_mem s' =
        <[dh := load_handle slot s]> (<[sp := image_spec p]> (caller_mem s))
    ∧ load_handle slot s1 = load_handle slot s
    ∧ load_handle slot s' = load_handle slot s
    ∧ same_statics s s'
    ∧ world s' = world s1
    ∧ trace s' = trace s1
    ∧ ∀ s0, stm32mp1_io_setup s0 = Returns tt s →
        ∃ evs, trace s = trace s0 ++ evs
          ∧ last_opened slot evs = Some (load_handle slot s').
Proof.
  intros Hp Hf Hrun.
  destruct (check_is_io_dev_init p f (policies_shape _ _ Hp) Hf)
    as (slot & Hslot & Hinit).
  rewrite Hinit in Hrun.
  destruct (io_dev_init_same_variables _ _ _ _ _ Hrun)
    as (Hctx & Hh & Hc & Hspec & Hinfo & Hmem).
  exists slot. eexists. split; [done |]. split.
  { unfold plat_get_image_source.
    rewrite (bind_run _ _ _ _ _
               (assert_in_range_run i s (lookup_lt_Some _ _ _ Hp))).
    rewrite Hp, Hf. cbn. rewrite Hinit, Hrun. cbn. rewrite Hslot. cbn.
    reflexivity. }
  assert (Hkeep : ∀ m (t : state W) q,
            load_handle q (with_caller_mem m t) = load_handle q t)
    by (intros m t q; by destruct q).
  cbn -[stm32mp1_io_setup]. rewrite !Hkeep, Hh, Hmem.
  split; [by rewrite lookup_insert_eq |].
  split; [intros Hne; by rewrite lookup_insert_ne, lookup_insert_eq |].
  split; [done |]. split; [done |]. split; [done |].
  split.
  { repeat split; try done; intros q; rewrite ?Hkeep; try done;
      rewrite <- Hc; by destruct q. }
  split; [done |]. split; [done |].
  intros s0 Hsetup.
  destruct (io_setup_handles _ _ Hsetup) as (evs & Hevs & Hlast).
  exists evs. split; [done |]. apply Hlast.
Qed.

End Setup.

(** ** Runs on the simulated card *)

Section Runs.

Local Existing Instance sim_backend.
Local Existing Instance sim_platform.

Example sim_run_returns :
  stm32mp1_io_setup (P := sim_platform) sim_sd1 = Returns tt sim_ready.
Proof. by vm_compute. Qed.

Example sim_run_handles :
  dummy_dev_handle sim_ready = 0x1000
  ∧ storage_dev_handle sim_ready = 0x1002
  ∧ image_dev_handle sim_ready = 0x1003.
Proof. by vm_compute. Qed.

Example sim_run_trace :
  trace sim_ready =
    [ Log LOG_INFO "Using SDMMC\n" [];
      Log LOG_INFO "  Instance %d\n" [ArgInt 1];
      Log LOG_INFO "Boot used partition fsbl%d\n" [ArgInt 1];
      Call_register_io_dev IO_DUMMY dummy_dev_con_p 0 0x100;
      Call_io_dev_open 0x100 0 dummy_dev_handle_p 0 0x1000;
      Call_dmbsy;
      Call_stm32_sdmmc2_mmc_init
        {| reg_base := 0x58005000;
           device_info := {| mmc_dev_type := MMC_IS_SD |} |} 0;
      Call_register_io_dev IO_BLOCK mmc_dev_con_p 0 0x200;
      Call_io_dev_open 0x200 0x2ffc0030 storage_dev_handle_p 0 0x1001;
      Call_partition_init 28;
      Call_io_dev_close 0x1001 0;
      Call_stm32_sdmmc2_mmc_get_device_size 0x40000000;
      Call_get_partition_entry "ssbl"
        (Some {| entry_start := 0x84400; entry_length := 0x200000;
                 entry_name := "ssbl" |});
      Call_register_io_dev IO_MMC mmc_dev_con_p 0 0x300;
      Call_io_dev_open 0x300 0 storage_dev_handle_p 0 0x1002;
      Call_register_io_dev IO_STM32IMAGE stm32image_dev_con_p 0 0x400;
      Call_io_dev_open 0x400 0x2ffc0050 image_dev_handle_p 0 0x1003 ].
Proof. by vm_compute. Qed.

(** The container image resolves to the handle the last opening gave. *)
Example sim_resolve_bl33 :
  ∃ s', plat_get_image_source (P := sim_platform) 5 0x100 0x108 sim_ready
        = Returns 0 s'
    ∧ caller_mem s' !! 0x100 = Some 0x1003
    ∧ caller_mem s' !! 0x108 = Some 0x2ffc0010.
Proof. eexists. split; [vm_compute; reflexivity |]. by vm_compute. Qed.

(** An identifier inside the table that no initializer names has a null
    check: the call through it is undefined. *)
Example sim_resolve_hole :
  plat_get_image_source (P := sim_platform) 0 0x100 0x108 sim_ready
  = Halts Undefined sim_ready.
Proof. by vm_compute. Qed.

Example sim_resolve_out_of_range :
  plat_get_image_source (P := sim_platform) 30 0x100 0x108 sim_ready
  = Halts AssertionFailed sim_ready.
Proof. by vm_compute. Qed.

Example sim_documented_base_emmc2 :
  documented_reg_base (P := sim_platform) EMMC 2 = 0x58007000.
Proof. by vm_compute. Qed.

Lemma check_ignores_spec_witness :
  policies (P := sim_platform) !! 28%nat = Some sim_gpt_policy
  ∧ check sim_gpt_policy = Some open_storage
  ∧ ∃ slot, dev_handle sim_gpt_policy = Some slot
      ∧ (∀ spec s, open_storage spec s = io_dev_init (load_handle slot s) 0 s)
      ∧ (∀ spec spec' s, open_storage spec s = open_storage spec' s).
Proof.
  assert (H1 : policies (P := sim_platform) !! 28%nat = Some sim_gpt_policy)
    by (vm_compute; reflexivity).
  assert (H2 : check sim_gpt_policy = Some open_storage) by reflexivity.
  split; [exact H1 |]. split; [exact H2 |].
  exact (check_ignores_spec (P := sim_platform) 28 sim_gpt_policy
           open_storage H1 H2).
Defined.

Lemma plat_get_image_source_success_witness :
  policies (P := sim_platform) !! 1%nat = Some sim_bl2_policy
  ∧ open_dummy (image_spec sim_bl2_policy) sim_ready
    = Returns 0 (final_state (open_dummy 0 sim_ready))
  ∧ ∃ slot s',
      dev_handle sim_bl2_policy = Some slot
      ∧ plat_get_image_source (P := sim_platform) 1 0x100 0x108 sim_ready
        = Returns 0 s'
      ∧ caller_mem s' !! 0x100 = Some (load_handle slot s')
      ∧ (0x108 ≠ 0x100 →
         caller_mem s' !! 0x108 = Some (image_spec sim_bl2_policy))
      ∧ caller_mem s' =
          <[0x100 := load_handle slot sim_ready]>
            (<[0x108 := image_spec sim_bl2_policy]> (caller_mem sim_ready))
      ∧ load_handle slot (final_state (open_dummy 0 sim_ready))
        = load_handle slot sim_ready
      ∧ load_handle slot s' = load_handle slot sim_ready
      ∧ same_statics sim_ready s'
      ∧ world s' = world (final_state (open_dummy 0 sim_ready))
      ∧ trace s' = trace (final_state (open_dummy 0 sim_ready))
      ∧ ∀ s0, stm32mp1_io_setup s0 = Returns tt sim_ready →
          ∃ evs, trace sim_ready = trace s0 ++ evs
            ∧ last_opened slot evs = Some (load_handle slot s').
Proof.
  assert (H1 : policies (P := sim_platform) !! 1%nat = Some sim_bl2_policy)
    by (vm_compute; reflexivity).
  assert (H3 : open_dummy (image_spec sim_bl2_policy) sim_ready
               = Returns 0 (final_state (open_dummy 0 sim_ready)))
    by (vm_compute; reflexivity).
  split; [exact H1 |]. split; [exact H3 |].
  exact (plat_get_image_source_success (P := sim_platform) 1 sim_bl2_policy
           open_dummy sim_ready _ 0x100 0x108 H1 eq_refl H3).
Defined.

Lemma plat_get_image_source_failure_witness :
  policies (P := sim_platform) !! 5%nat = Some sim_bl33_policy
  ∧ open_image (image_spec sim_bl33_policy) sim_absent
    = Returns (-2) (final_state (open_image 0 sim_absent))
  ∧ plat_get_image_source (P := sim_platform) 5 0x100 0x108 sim_absent
    = Returns (-2) (final_state (open_image 0 sim_absent))
  ∧ caller_mem (final_state (open_image 0 sim_absent)) = caller_mem sim_absent
  ∧ same_variables sim_absent (final_state (open_image 0 sim_absent)).
Proof.
  assert (H1 : policies (P := sim_platform) !! 5%nat = Some sim_bl33_policy)
    by (vm_compute; reflexivity).
  assert (H3 : open_image (image_spec sim_bl33_policy) sim_absent
               = Returns (-2) (final_state (open_image 0 sim_absent)))
    by (vm_compute; reflexivity).
  assert (H4 : -2 ≠ 0) by discriminate.
  split; [exact H1 |]. split; [exact H3 |].
  exact (plat_get_image_source_failure (P := sim_platform) 5 sim_bl33_policy
           open_image sim_absent _ (-2) 0x100 0x108 H1 eq_refl H3 H4).
Defined.

Lemma io_setup_close_before_reopen_witness :
  stm32mp1_io_setup (P := sim_platform) sim_sd1 = Returns tt sim_ready
  ∧ ∃ pre rcb cb rco hb rcc mid rcm cm rcs hs post,
      trace sim_ready = trace sim_sd1 ++ pre
        ++ [Call_register_io_dev IO_BLOCK mmc_dev_con_p rcb cb;
            Call_io_dev_open cb 0x2ffc0030 storage_dev_handle_p rco hb;
            Call_partition_init 28;
            Call_io_dev_close hb rcc]
        ++ mid
        ++ [Call_register_io_dev IO_MMC mmc_dev_con_p rcm cm;
            Call_io_dev_open cm 0 storage_dev_handle_p rcs hs]
        ++ post
      ∧ Forall (fun e => session_event e = false) (pre ++ mid ++ post)
      ∧ storage_dev_handle sim_ready = hs
      ∧ run_monitor monitor_start
          (pre
           ++ [Call_register_io_dev IO_BLOCK mmc_dev_con_p rcb cb;
               Call_io_dev_open cb 0x2ffc0030 storage_dev_handle_p rco hb;
               Call_partition_init 28;
               Call_io_dev_close hb rcc]
           ++ mid
           ++ [Call_register_io_dev IO_MMC mmc_dev_con_p rcm cm;
               Call_io_dev_open cm 0 storage_dev_handle_p rcs hs]
           ++ post)
        = Some {| mon_connector := Some IO_MMC;
                  mon_session := OpenedForStreaming hs |}.
Proof.
  assert (H1 : stm32mp1_io_setup (P := sim_platform) sim_sd1
               = Returns tt sim_ready)
    by (vm_compute; reflexivity).
  split; [exact H1 |].
  exact (io_setup_close_before_reopen (P := sim_platform) sim_sd1 sim_ready H1).
Defined.

Lemma io_setup_missing_partition_witness :
  be_get_partition_entry "ssbl"
    (world (final_state (io_setup_discovery (P := sim_platform) sim_emmc7)))
  = None
  ∧ ∃ s2 evs,
      stm32mp1_io_setup (P := sim_platform) sim_emmc7 = Halts Panic s2
      ∧ trace s2 = trace sim_emmc7 ++ evs
      ∧ Log LOG_ERROR "Partition %s not found\n" [ArgStr "ssbl"] ∈ evs
      ∧ Forall (fun e => container_event e = false) evs.
Proof.
  assert (H1 : io_setup_discovery (P := sim_platform) sim_emmc7
               = Returns tt (final_state
                               (io_setup_discovery (P := sim_platform)
                                  sim_emmc7)))
    by (vm_compute; reflexivity).
  assert (H2 : (0 < IMG_IDX_NUM)%nat) by (unfold IMG_IDX_NUM; lia).
  assert (H3 : part_info
                 (stm32image_dev_info_spec
                    (final_state (io_setup_discovery (P := sim_platform)
                                    sim_emmc7))) !! 0%nat
               = Some {| name := "ssbl"; binary_type := 0; part_offset := 0;
                         bkp_offset := 0 |})
    by (vm_compute; reflexivity).
  assert (H4 : be_get_partition_entry "ssbl"
                 (world (final_state (io_setup_discovery (P := sim_platform)
                                        sim_emmc7))) = None)
    by (vm_compute; reflexivity).
  split; [exact H4 |].
  exact (io_setup_missing_partition (P := sim_platform) sim_emmc7 _ 0
           {| name := "ssbl"; binary_type := 0; part_offset := 0;
              bkp_offset := 0 |} H1 H2 H3 H4).
Defined.

Lemma io_setup_reg_base_documented_witness :
  interface_kind_of (P := sim_platform)
    (boot_interface_selected (boot_context sim_emmc2)) = Some EMMC
  ∧ ∃ rc post,
      trace (final_state (stm32mp1_io_setup (P := sim_platform) sim_emmc2)) =
        trace (final_state
                 (io_setup_dummy (P := sim_platform) (boot_context sim_emmc2)
                    sim_emmc2))
          ++ [Call_dmbsy]
          ++ fallback_warning (boot_interface_instance (boot_context sim_emmc2))
          ++ [Call_stm32_sdmmc2_mmc_init
                {| reg_base :=
                     documented_reg_base (P := sim_platform) EMMC
                       (boot_interface_instance (boot_context sim_emmc2));
                   device_info :=
                     {| mmc_dev_type := documented_dev_type EMMC |} |} rc]
          ++ post.
Proof.
  assert (H1 : @BOOT_API_CTX_BOOT_INTERFACE_SEL_FLASH_SD sim_platform
               ≠ @BOOT_API_CTX_BOOT_INTERFACE_SEL_FLASH_EMMC sim_platform)
    by discriminate.
  assert (H2 : interface_kind_of (P := sim_platform)
                 (boot_interface_selected (boot_context sim_emmc2))
               = Some EMMC)
    by reflexivity.
  assert (H3 : io_setup_dummy (P := sim_platform) (boot_context sim_emmc2)
                 sim_emmc2
               = Returns tt
                   (final_state
                      (io_setup_dummy (P := sim_platform)
                         (boot_context sim_emmc2) sim_emmc2)))
    by (vm_compute; reflexivity).
  split; [exact H2 |].
  exact (io_setup_reg_base_documented (P := sim_platform) sim_emmc2 _ EMMC
           H1 H2 H3).
Defined.


Lemma io_setup_unsupported_panics_witness :
  interface_kind_of (P := sim_platform)
    (boot_interface_selected (boot_context sim_uart)) = None
  ∧ ∃ s' evs,
      print_boot_device (P := sim_platform) (boot_context sim_uart) sim_uart
      = Halts Panic s'
      ∧ stm32mp1_io_setup (P := sim_platform) sim_uart = Halts Panic s'
      ∧ trace s' = trace sim_uart ++ evs
      ∧ Forall (fun e => device_event e = false) evs
      ∧ same_variables sim_uart s'
      ∧ ∀ image_id dh sp,
          bind (stm32mp1_io_setup (P := sim_platform))
            (fun _ => plat_get_image_source image_id dh sp) sim_uart
          = Halts Panic s'.
Proof.
  assert (H1 : interface_kind_of (P := sim_platform)
                 (boot_interface_selected (boot_context sim_uart)) = None)
    by reflexivity.
  split; [exact H1 |].
  exact (io_setup_unsupported_panics (P := sim_platform) sim_uart H1).
Defined.

Lemma io_setup_unsupported_halts_witness :
  storage_interface (P := sim_platform)
    (boot_interface_selected (boot_context sim_nand)) = false
  ∧ ∃ s' evs,
      stm32mp1_io_setup (P := sim_platform) sim_nand = Halts Panic s'
      ∧ trace s' = trace sim_nand ++ evs
      ∧ Log LOG_ERROR "Boot interface not found\n" [] ∈ evs
      ∧ Forall (fun e => peripheral_event e = false) evs
      ∧ ∀ args, Log LOG_ERROR "Boot interface %d not supported\n" args ∉ evs.
Proof.
  assert (H1 : storage_interface (P := sim_platform)
                 (boot_interface_selected (boot_context sim_nand)) = false)
    by reflexivity.
  split; [exact H1 |].
  exact (io_setup_unsupported_halts (P := sim_platform) sim_nand H1).
Defined.


(** C2 as the specification words it fails on the code: with the UART
    interface selected, setup does not return. *)
Lemma unsupported_interface_returns_counterexample :
  storage_interface (P := sim_platform)
    (boot_interface_selected (boot_context sim_uart)) = false
  ∧ ¬ unsupported_interface_returns (P := sim_platform) sim_uart.
Proof.
  split; [reflexivity |].
  intros (s' & evs & Hrun & _).
  vm_compute in Hrun. discriminate Hrun.
Qed.

End Runs.

(** ** More about the resolver *)

Section ResolverMore.

Context {P : platform_def} {W : Type} {B : io_backend W}.

Implicit Types (s : state W).

Lemma policies_lookup_zero i :
  (i < length policies)%nat →
  i ≠ BL2_IMAGE_ID → i ≠ BL32_IMAGE_ID → i ≠ BL33_IMAGE_ID →
  i ≠ GPT_IMAGE_ID → i ≠ STM32_IMAGE_ID →
  policies (W := W) !! i = Some zero_policy.
Proof.
  rewrite length_policies. intros Hi H1 H2 H3 H4 H5. unfold policies.
  rewrite !list_lookup_insert_ne by done.
  by apply lookup_replicate_2.
Qed.

(** X11: An identifier below the size of the table that no initializer names
    has a null check pointer: the resolver calls through it, which is
    undefined, and no assertion stands in the way. *)
Theorem plat_get_image_source_hole i dh sp s :
  (i < length policies)%nat →
  i ≠ BL2_IMAGE_ID → i ≠ BL32_IMAGE_ID → i ≠ BL33_IMAGE_ID →
  i ≠ GPT_IMAGE_ID → i ≠ STM32_IMAGE_ID →
  plat_get_image_source i dh sp s = Halts Undefined s.
Proof.
  intros Hi H1 H2 H3 H4 H5. unfold plat_get_image_source.
  rewrite (bind_run _ _ _ _ _ (assert_in_range_run i s Hi)).
  by rewrite policies_lookup_zero.
Qed.

Lemma same_statics_refl s : same_statics s s.
Proof. by repeat split. Qed.

Lemma plat_get_image_source_halts_at i dh sp s :
  policies (W := W) !! i = None ∨ policies (W := W) !! i = Some zero_policy →
  ∃ h, plat_get_image_source i dh sp s = Halts h s.
Proof.
  intros Hi. unfold plat_get_image_source, assert. cbn.
  destruct ENABLE_ASSERTIONS; [destruct (bool_decide _) |]; cbn; eauto;
    destruct Hi as [-> | ->]; cbn; eauto.
Qed.

(** X10: What the resolver leaves alone, whatever the identifier and however
    the call ends: every variable of the file, and every cell of the
    caller's memory but the two it is given; and it makes at most one call,
    an [io_dev_init] with parameter 0. *)
Theorem plat_get_image_source_frame i dh sp s :
  same_statics s (final_state (plat_get_image_source i dh sp s))
  ∧ (∀ q, q ≠ dh → q ≠ sp →
       caller_mem (final_state (plat_get_image_source i dh sp s)) !! q
       = caller_mem s !! q)
  ∧ ∃ evs,
      trace (final_state (plat_get_image_source i dh sp s)) = trace s ++ evs
      ∧ (length evs ≤ 1)%nat
      ∧ Forall (fun e => ∃ h rc, e = Call_io_dev_init h 0 rc) evs.
Proof.
  assert (Hstay : ∀ h, plat_get_image_source i dh sp s = Halts h s →
            same_statics s (final_state (plat_get_image_source i dh sp s))
            ∧ (∀ q, q ≠ dh → q ≠ sp →
                 caller_mem (final_state (plat_get_image_source i dh sp s)) !! q
                 = caller_mem s !! q)
            ∧ ∃ evs,
                trace (final_state (plat_get_image_source i dh sp s))
                = trace s ++ evs
                ∧ (length evs ≤ 1)%nat
                ∧ Forall (fun e => ∃ h rc, e = Call_io_dev_init h 0 rc) evs).
  { intros h ->. cbn. split; [apply same_statics_refl |]. split; [done |].
    exists []. rewrite app_nil_r. repeat split; [cbn; lia | constructor]. }
  destruct (policies (W := W) !! i) as [p |] eqn:Hp.
  2:{ destruct (plat_get_image_source_halts_at i dh sp s) as [h Hh]; eauto. }
  destruct (policies_shape _ _ Hp) as [-> | Hshape].
  { destruct (plat_get_image_source_halts_at i dh sp s) as [h Hh]; eauto. }
  assert (∃ f, check p = Some f) as [f Hf]
    by (destruct Hshape as [[_ H] | [[_ H] | [_ H]]]; eauto).
  destruct (check_is_io_dev_init p f (policies_shape _ _ Hp) Hf)
    as (slot & Hslot & Hinit).
  unfold plat_get_image_source.
  rewrite (bind_run _ _ _ _ _
             (assert_in_range_run i s (lookup_lt_Some _ _ _ Hp))).
  rewrite Hp, Hf. cbn. rewrite Hinit, io_dev_init_run. cbn.
  destruct (_ =? 0); cbn; rewrite ?Hslot; cbn.
  - split; [by repeat split; intros [] |].
    split; [intros q Hq1 Hq2; by rewrite !lookup_insert_ne |].
    eexists [_]. repeat split; [cbn; lia | repeat constructor; eauto].
  - split; [by repeat split; intros [] |].
    split; [done |].
    eexists [_]. repeat split; [cbn; lia | repeat constructor; eauto].
Qed.

(** X13: What a successful resolution leaves in the caller's memory: the handle
    at [dev_handle_out], the specification at [image_spec_out] unless the
    two pointers are the same cell, in which case the handle, stored last,
    is what the cell holds. *)
Theorem plat_get_image_source_outputs i (p : plat_io_policy) f s s1 dh sp :
  policies !! i = Some p → check p = Some f →
  f (image_spec p) s = Returns 0 s1 →
  ∃ slot s',
    dev_handle p = Some slot
    ∧ plat_get_image_source i dh sp s = Returns 0 s'
    ∧ caller_mem s' !! dh = Some (load_handle slot s)
    ∧ (sp ≠ dh → caller_mem s' !! sp = Some (image_spec p))
    ∧ (sp = dh → caller_mem s' !! sp = Some (load_handle slot s)).
Proof.
  intros Hp Hf Hrun.
  destruct (check_is_io_dev_init p f (policies_shape _ _ Hp) Hf)
    as (slot & Hslot & Hinit).
  rewrite Hinit in Hrun.
  destruct (io_dev_init_same_variables _ _ _ _ _ Hrun) as (_ & Hh & _).
  exists slot. eexists. split; [done |]. split.
  { unfold plat_get_image_source.
    rewrite (bind_run _ _ _ _ _
               (assert_in_range_run i s (lookup_lt_Some _ _ _ Hp))).
    rewrite Hp, Hf. cbn. rewrite Hinit, Hrun. cbn. rewrite Hslot. cbn.
    reflexivity. }
  cbn. rewrite <- Hh.
  assert (Hsame : load_handle slot
            (with_caller_mem (<[sp:=image_spec p]> (caller_mem s1)) s1)
          = load_handle slot s1) by (by destruct slot).
  rewrite Hsame. split; [by rewrite lookup_insert_eq |].
  split.
  - intros Hne. by rewrite lookup_insert_ne, lookup_insert_eq.
  - intros ->. by rewrite lookup_insert_eq.
Qed.

Lemma plat_get_image_source_returns_inv i dh sp s rc s' :
  plat_get_image_source i dh sp s = Returns rc s' →
  ∃ (p : plat_io_policy) slot s1,
    policies !! i = Some p
    ∧ dev_handle p = Some slot
    ∧ io_dev_init (load_handle slot s) 0 s = Returns rc s1
    ∧ s' = if rc =? 0
           then with_caller_mem
                  (<[dh := load_handle slot s1]>
                     (<[sp := image_spec p]> (caller_mem s1))) s1
           else s1.
Proof.
  intros Hrun.
  destruct (policies (W := W) !! i) as [p |] eqn:Hp.
  2:{ destruct (plat_get_image_source_halts_at i dh sp s) as [h Hh]; eauto.
      by rewrite Hh in Hrun. }
  destruct (policies_shape _ _ Hp) as [-> | Hshape].
  { destruct (plat_get_image_source_halts_at i dh sp s) as [h Hh]; eauto.
    by rewrite Hh in Hrun. }
  assert (∃ f, check p = Some f) as [f Hf]
    by (destruct Hshape as [[_ H] | [[_ H] | [_ H]]]; eauto).
  destruct (check_is_io_dev_init p f (policies_shape _ _ Hp) Hf)
    as (slot & Hslot & Hinit).
  exists p, slot.
  unfold plat_get_image_source in Hrun.
  rewrite (bind_run _ _ _ _ _
             (assert_in_range_run i s (lookup_lt_Some _ _ _ Hp))) in Hrun.
  rewrite Hp, Hf in Hrun. cbn in Hrun. rewrite Hinit in Hrun.
  destruct (io_dev_init (load_handle slot s) 0 s) as [rc1 s1 | h1 s1] eqn:Hi;
    [| done].
  exists s1. cbn in Hrun.
  destruct (rc1 =? 0) eqn:Hrc; cbn in Hrun; rewrite ?Hslot in Hrun;
    cbn in Hrun; injection Hrun as <- <-; rewrite Hrc;
    repeat split; try done.
Qed.

(** X14: The answer for an identifier is stable: two successful resolutions of
    the same identifier, one after the other, leave the same handle at
    their handle pointers and, when each call is given two different
    cells, the same specification at their specification pointers. *)
Theorem plat_get_image_source_stable i dh sp dh' sp' s s1 s2 :
  plat_get_image_source i dh sp s = Returns 0 s1 →
  plat_get_image_source i dh' sp' s1 = Returns 0 s2 →
  caller_mem s2 !! dh' = caller_mem s1 !! dh
  ∧ (sp ≠ dh → sp' ≠ dh' → caller_mem s2 !! sp' = caller_mem s1 !! sp).
Proof.
  intros Hrun1 Hrun2.
  apply plat_get_image_source_returns_inv in Hrun1
    as (p & slot & t1 & Hp & Hslot & Hinit1 & ->).
  apply plat_get_image_source_returns_inv in Hrun2
    as (p' & slot' & t2 & Hp' & Hslot' & Hinit2 & ->).
  rewrite Hp in Hp'. injection Hp' as <-.
  rewrite Hslot in Hslot'. injection Hslot' as <-.
  destruct (io_dev_init_same_variables _ _ _ _ _ Hinit2) as (_ & Hh & _).
  cbn. split.
  - rewrite !lookup_insert_eq. f_equal. rewrite Hh. by destruct slot.
  - intros Hne Hne'.
    rewrite (lookup_insert_ne _ dh' sp') by (intros ->; by apply Hne').
    rewrite (lookup_insert_ne _ dh sp) by (intros ->; by apply Hne).
    by rewrite !lookup_insert_eq.
Qed.

End ResolverMore.

(** ** More about setup *)

(** As [run_calls], keeping for each test the equation that says how it
    went. *)
Ltac run_calls_eqn :=
  repeat (cbn in *;
    match goal with
    | |- context [be_register_io_dev ?d ?o ?w] =>
        destruct (be_register_io_dev d o w) as [[? ?] ?]
    | |- context [be_io_dev_open ?c ?sp ?o ?w] =>
        destruct (be_io_dev_open c sp o w) as [[? ?] ?]
    | |- context [be_io_dev_close ?h ?w] =>
        destruct (be_io_dev_close h w) as [? ?]
    | |- context [if ?b then _ else _] => destruct b eqn:?
    end);
  cbn in *.

(** Turns the equations of the tests on return codes into equations on the
    codes. *)
Ltac rc_facts :=
  repeat match goal with
    | H : negb _ = false |- _ => apply negb_false_iff in H
    | H : negb _ = true |- _ => apply negb_true_iff in H
    | H : (_ =? 0) = true |- _ => apply Z.eqb_eq in H
    | H : (_ =? 0) = false |- _ => apply Z.eqb_neq in H
    end;
  subst.

Section SetupMore.

Context {P : platform_def} {W : Type} {B : io_backend W}.

Implicit Types (s : state W) (ctx : boot_api_context_t).

(** X1: For one of the two storage interfaces [print_boot_device] returns: it
    names the interface, names the instance unless the instance is 0, and
    changes nothing else. *)
Theorem print_boot_device_recognized ctx k s :
  interface_kind_of (boot_interface_selected ctx) = Some k →
  ∃ s', print_boot_device ctx s = Returns tt s'
    ∧ trace s' = trace s
        ++ [Log LOG_INFO
              match k with
              | SD => "Using SDMMC\n"
              | EMMC => "Using EMMC\n"
              end []]
        ++ (if boot_interface_instance ctx =? 0 then []
            else [Log LOG_INFO "  Instance %d\n"
                    [ArgInt (boot_interface_instance ctx)]])
    ∧ same_variables s s'.
Proof.
  unfold interface_kind_of, print_boot_device, INFO.
  destruct (_ =? BOOT_API_CTX_BOOT_INTERFACE_SEL_FLASH_SD);
    [| destruct (_ =? BOOT_API_CTX_BOOT_INTERFACE_SEL_FLASH_EMMC)];
    intros [= <-]; cbn;
    destruct (boot_interface_instance ctx =? 0); cbn;
    (eexists; split; [reflexivity |]; cbn; rewrite <- ?app_assoc;
     split; [done | by repeat split; intros []]).
Qed.

Lemma io_setup_storage_no_unsupported_message ctx :
  respects (emitted (fun e => unsupported_message e = false))
    (io_setup_dummy ctx ;;
     io_setup_sdmmc ctx ;;
     io_setup_partition_table ;;
     io_setup_part_offsets ;;
     io_setup_reopen)%io.
Proof.
  unfold io_setup_dummy, print_boot_device, io_setup_sdmmc, io_setup_reg_base,
    io_setup_partition_table, io_setup_part_offsets, io_setup_part_offset,
    update_part, io_setup_reopen, register_io_dev_dummy,
    register_io_dev_block, register_io_dev_mmc, register_io_dev_stm32image,
    dmbsy, INFO, WARN, ERROR.
  respects_tac.
Qed.

(** X2: The [default] branch of the [switch] of setup is dead: whatever the
    boot context, the message it would log is never among the events of
    setup, because [print_boot_device] has halted before. *)
Theorem io_setup_default_unreachable s :
  ∃ evs,
    trace (final_state (stm32mp1_io_setup s)) = trace s ++ evs
    ∧ ∀ args,
        Log LOG_ERROR "Boot interface %d not supported\n" args ∉ evs.
Proof.
  assert (Hno : ∀ evs,
            Forall (fun e => unsupported_message e = false) evs →
            ∀ args,
              Log LOG_ERROR "Boot interface %d not supported\n" args ∉ evs).
  { intros evs Hall args Hin.
    by apply (proj1 (Forall_forall _ _) Hall) in Hin. }
  destruct (storage_interface (boot_interface_selected (boot_context s)))
    eqn:Hsel.
  - destruct (io_setup_storage_no_unsupported_message (boot_context s) s)
      as (evs & Hevs & Hall).
    exists evs. split; [| by apply Hno].
    rewrite <- Hevs. unfold stm32mp1_io_setup.
    rewrite (bind_run (get boot_context) _ s (boot_context s) s eq_refl).
    cbn. by rewrite Hsel.
  - apply storage_interface_none in Hsel.
    rewrite (io_setup_unsupported _ Hsel). eexists. split; [reflexivity |].
    apply Hno. by repeat constructor.
Qed.

(** X3: When the driver initialization fails, setup names the instance in an
    error message and halts on [panic]; the failed call and the message are
    its last events, so that no block device has been registered. *)
Theorem io_setup_sdmmc_init_failure s s0 k rc w' :
  BOOT_API_CTX_BOOT_INTERFACE_SEL_FLASH_SD
    ≠ BOOT_API_CTX_BOOT_INTERFACE_SEL_FLASH_EMMC →
  interface_kind_of (boot_interface_selected (boot_context s)) = Some k →
  io_setup_dummy (boot_context s) s = Returns tt s0 →
  be_stm32_sdmmc2_mmc_init
    {| reg_base :=
         documented_reg_base k (boot_interface_instance (boot_context s));
       device_info := {| mmc_dev_type := documented_dev_type k |} |}
    (world s0) = (rc, w') →
  rc ≠ 0 →
  ∃ s', stm32mp1_io_setup s = Halts Panic s'
    ∧ world s' = w'
    ∧ trace s' = trace s0 ++ [Call_dmbsy]
        ++ fallback_warning (boot_interface_instance (boot_context s))
        ++ [Call_stm32_sdmmc2_mmc_init
              {| reg_base :=
                   documented_reg_base k
                     (boot_interface_instance (boot_context s));
                 device_info :=
                   {| mmc_dev_type := documented_dev_type k |} |} rc;
            Log LOG_ERROR "SDMMC%u init failed\n"
              [ArgInt (boot_interface_instance (boot_context s))]].
Proof.
  intros Hne Hk Hdummy Hinit Hrc.
  assert (Hsel : storage_interface
                   (boot_interface_selected (boot_context s)) = true).
  { apply storage_interface_kind. by exists k. }
  rewrite (stm32mp1_io_setup_storage _ _ Hsel Hdummy).
  set (s1 := with_trace (trace s0 ++ [Call_dmbsy]) s0).
  destruct (io_setup_reg_base_run (boot_context s) k s1 Hk Hne)
    as (s2 & Hbase & Ht2 & Hw2).
  assert (Hsdmmc : ∃ s',
            io_setup_sdmmc (boot_context s) s0 = Halts Panic s'
            ∧ world s' = w'
            ∧ trace s' = trace s2
                ++ [Call_stm32_sdmmc2_mmc_init
                      {| reg_base :=
                           documented_reg_base k
                             (boot_interface_instance (boot_context s));
                         device_info :=
                           {| mmc_dev_type := documented_dev_type k |} |} rc;
                    Log LOG_ERROR "SDMMC%u init failed\n"
                      [ArgInt (boot_interface_instance (boot_context s))]]).
  { unfold io_setup_sdmmc.
    rewrite <- (documented_dev_type_run (boot_context s) k Hk Hne) in *.
    assert (Hrun : ∀ A (k' : unit → M W A), bind dmbsy k' s0 = k' tt s1)
      by done.
    rewrite Hrun.
    destruct (boot_interface_selected (boot_context s)
                =? BOOT_API_CTX_BOOT_INTERFACE_SEL_FLASH_EMMC);
      rewrite (bind_run _ _ _ _ _ Hbase); unfold stm32_sdmmc2_mmc_init;
      cbn; rewrite Hw2; subst s1; cbn; rewrite Hinit; cbn;
      destruct (Z.eqb_spec rc 0); [done | | done |]; cbn;
      (eexists; split; [reflexivity |]; cbn; by rewrite <- app_assoc). }
  destruct Hsdmmc as (s' & Hrun & Hw & Ht).
  exists s'. split; [by apply bind_halts |]. split; [done |].
  rewrite Ht, Ht2. subst s1. cbn. by rewrite <- !app_assoc.
Qed.

(** *** What setup leaves alone *)

Global Instance same_image_preorder : PreOrder same_image.
Proof.
  split; unfold same_image; [done |].
  intros p1 p2 p3 [H1 H2] [H3 H4]. by rewrite H3, H4.
Qed.

Lemma kept_by_setup_preorder : PreOrder (kept_by_setup (W := W)).
Proof.
  split.
  - intros s. by repeat split.
  - intros s1 s2 s3 (Ha & Hb & Hc & Hd & He & Hf) (Ha' & Hb' & Hc' & Hd' & He' & Hf').
    unfold kept_by_setup.
    rewrite Ha', Hb', Hc', Hd', Hf'. repeat split; try done.
    by etransitivity.
Qed.

Lemma kept_by_setup_dev_info s s' :
  boot_context s' = boot_context s →
  dummy_dev_spec s' = dummy_dev_spec s →
  caller_mem s' = caller_mem s →
  stm32image_dev_info_spec s' = stm32image_dev_info_spec s →
  kept_by_setup s s'.
Proof. intros Ha Hb Hc Hd. unfold kept_by_setup. by rewrite Ha, Hb, Hc, Hd. Qed.

Global Instance kept_by_setup_frame : Frame (kept_by_setup (W := W)) :=
  {| frame_allowed := fun _ => True;
     frame_slot := fun _ => True;
     frame_preorder := kept_by_setup_preorder;
     frame_world s w :=
       kept_by_setup_dev_info s (with_world w s) eq_refl eq_refl eq_refl
         eq_refl;
     frame_handle s p v _ :=
       kept_by_setup_dev_info s (with_handle p v s) eq_refl eq_refl eq_refl
         eq_refl;
     frame_connector s p v :=
       kept_by_setup_dev_info s (with_connector p v s) eq_refl eq_refl
         eq_refl eq_refl;
     frame_emit s e _ :=
       kept_by_setup_dev_info s (with_trace (trace s ++ [e]) s) eq_refl
         eq_refl eq_refl eq_refl |}.

Lemma respects_kept_update_part idx f :
  (idx < IMG_IDX_NUM)%nat → (∀ p, same_image p (f p)) →
  respects (W := W) kept_by_setup (update_part idx f).
Proof.
  intros Hidx Hf s. unfold update_part. cbn.
  destruct (part_info (stm32image_dev_info_spec s) !! idx) as [part |] eqn:Hp;
    cbn; [| reflexivity].
  unfold kept_by_setup. cbn. repeat split.
  - rewrite <- (list_insert_id _ _ _ Hp) at 1.
    apply Forall2_insert; [reflexivity | apply Hf].
  - by apply drop_insert_lt.
Qed.

Lemma respects_kept_device_size size :
  respects (W := W) kept_by_setup
    (info <- get stm32image_dev_info_spec ;;
     set_dev_info {| part_info := part_info info; device_size := size;
                     lba_size := lba_size info |})%io.
Proof. intros s. cbn. by repeat split. Qed.

(** Like [respects_tac], with a tactic of its own tried at every step
    before a bind is taken apart. *)
Ltac respects_with tac :=
  repeat first
    [ progress intros
    | solve [ eauto with respects ]
    | tac
    | apply respects_bind
    | match goal with
      | |- respects _ (if ?b then _ else _) => destruct b
      | |- respects _ (let '(_, _) := (if ?b then _ else _) in _) => destruct b
      | |- respects _ (match ?x with _ => _ end) => destruct x
      end ].

(** X8: However setup ends, it has left alone the boot context, the
    specification of the fixed-offset device, the caller's memory and the
    block size of the device information; the named images are as many as
    before, with their names and binary types, and those past the ones the
    loop visits are untouched. *)
Theorem io_setup_keeps s :
  kept_by_setup s (final_state (stm32mp1_io_setup s)).
Proof.
  revert s. change (respects (W := W) kept_by_setup stm32mp1_io_setup).
  unfold stm32mp1_io_setup, io_setup_dummy, print_boot_device, io_setup_sdmmc,
    io_setup_reg_base, io_setup_partition_table, io_setup_part_offsets,
    io_setup_part_offset, io_setup_reopen, register_io_dev_dummy,
    register_io_dev_block, register_io_dev_mmc, register_io_dev_stm32image,
    dmbsy, INFO, WARN, ERROR.
  cbn [for_idx IMG_IDX_NUM].
  respects_with
    ltac:(first [ apply respects_kept_device_size
                | apply respects_kept_update_part;
                  [unfold IMG_IDX_NUM; lia | intros ?; by split] ]).
Qed.

(** *** The calls, one at a time *)

Lemma bind_halts_inv {A A'} (m : M W A) (k : A → M W A') s h s' :
  bind m k s = Halts h s' →
  m s = Halts h s' ∨ ∃ a s1, m s = Returns a s1 ∧ k a s1 = Halts h s'.
Proof.
  unfold bind. destruct (m s) as [a s1 | h1 s1]; intros Hrun;
    [right; eauto | left; by injection Hrun as <- <-].
Qed.

Lemma assert_returns_true c s s' :
  assert c s = Returns tt s' → ENABLE_ASSERTIONS = true → c = true.
Proof.
  unfold assert. intros Hrun Hen. rewrite Hen in Hrun. by destruct c.
Qed.

Lemma assert_halts c s h s' :
  assert c s = Halts h s' →
  h = AssertionFailed ∧ s' = s ∧ ENABLE_ASSERTIONS = true ∧ c = false.
Proof.
  unfold assert. destruct ENABLE_ASSERTIONS, c; cbn; try done.
  by intros [= <- <-].
Qed.

Lemma register_io_dev_returns d p s rc s' :
  register_io_dev d p s = Returns rc s' →
  trace s' = trace s ++ [Call_register_io_dev d p rc (load_connector p s')].
Proof.
  unfold register_io_dev. cbn.
  destruct (be_register_io_dev d (load_connector p s) (world s))
    as [[rc' con] w'].
  cbn. intros [= <- <-]. by destruct p.
Qed.

Lemma register_io_dev_halts d p s h s' :
  register_io_dev d p s = Halts h s' → False.
Proof.
  unfold register_io_dev. cbn.
  by destruct (be_register_io_dev d (load_connector p s) (world s))
    as [[rc' con] w'].
Qed.

Lemma io_dev_open_halts c sp p s h s' :
  io_dev_open c sp p s = Halts h s' → False.
Proof.
  unfold io_dev_open. cbn.
  by destruct (be_io_dev_open c sp (load_handle p s) (world s))
    as [[rc' hd] w'].
Qed.

Lemma print_boot_device_halts ctx s h s' :
  print_boot_device ctx s = Halts h s' →
  h = Panic
  ∧ trace s' = trace s ++ [Log LOG_ERROR "Boot interface not found\n" []].
Proof.
  unfold print_boot_device, INFO, ERROR.
  destruct (_ =? BOOT_API_CTX_BOOT_INTERFACE_SEL_FLASH_SD);
    [| destruct (_ =? BOOT_API_CTX_BOOT_INTERFACE_SEL_FLASH_EMMC)]; cbn;
    try (by destruct (negb _)).
  by intros [= <- <-].
Qed.

(** *** The blocks, in full *)

Lemma io_setup_partition_table_shape s s' :
  io_setup_partition_table s = Returns tt s' →
  ∃ cb rco hb rcc size,
    trace s' = trace s ++
      [Call_register_io_dev IO_BLOCK mmc_dev_con_p 0 cb;
       Call_io_dev_open cb addr_mmc_block_dev_spec storage_dev_handle_p rco hb;
       Call_partition_init GPT_IMAGE_ID;
       Call_io_dev_close hb rcc;
       Call_stm32_sdmmc2_mmc_get_device_size size]
    ∧ (ENABLE_ASSERTIONS = true → rco = 0 ∧ rcc = 0)
    ∧ stm32image_dev_info_spec s' =
        {| part_info := part_info (stm32image_dev_info_spec s);
           device_size := size;
           lba_size := lba_size (stm32image_dev_info_spec s) |}.
Proof.
  unfold io_setup_partition_table, register_io_dev_block, register_io_dev,
    io_dev_open, partition_init, io_dev_close,
    stm32_sdmmc2_mmc_get_device_size, assert, panic.
  run_calls_eqn; intros [= <-]; rc_facts; cbn; rewrite <- ?app_assoc; cbn;
    do 5 eexists; (split; [reflexivity |]); (split; [| reflexivity]);
    by intros.
Qed.

Lemma io_setup_reopen_shape s s' :
  io_setup_reopen s = Returns tt s' →
  ∃ rcm cm rcs hs rci ci rco hi,
    trace s' = trace s ++
      [Call_register_io_dev IO_MMC mmc_dev_con_p rcm cm;
       Call_io_dev_open cm 0 storage_dev_handle_p rcs hs;
       Call_register_io_dev IO_STM32IMAGE stm32image_dev_con_p rci ci;
       Call_io_dev_open ci addr_stm32image_dev_info_spec image_dev_handle_p
         rco hi]
    ∧ (ENABLE_ASSERTIONS = true → rcm = 0 ∧ rcs = 0 ∧ rci = 0 ∧ rco = 0).
Proof.
  unfold io_setup_reopen, register_io_dev_mmc, register_io_dev_stm32image,
    register_io_dev, io_dev_open, assert.
  run_calls_eqn; intros [= <-]; rc_facts; cbn; rewrite <- ?app_assoc; cbn;
    do 8 eexists; (split; [reflexivity |]); by intros.
Qed.

Lemma print_boot_device_logs ctx :
  respects (W := W) (emitted (fun e => is_log e = true))
    (print_boot_device ctx).
Proof. unfold print_boot_device, INFO, ERROR. respects_tac. Qed.

Lemma print_boot_device_kept ctx :
  respects (W := W) kept_by_setup (print_boot_device ctx).
Proof. unfold print_boot_device, INFO, ERROR. respects_tac. Qed.

Lemma print_boot_device_same_dev_info ctx :
  respects (W := W) same_dev_info (print_boot_device ctx).
Proof. unfold print_boot_device, INFO, ERROR. respects_tac. Qed.

Lemma io_setup_dummy_shape ctx s s0 :
  io_setup_dummy ctx s = Returns tt s0 →
  ∃ logs rc c rc' h,
    trace s0 = trace s ++ logs
      ++ [Call_register_io_dev IO_DUMMY dummy_dev_con_p rc c;
          Call_io_dev_open c (dummy_dev_spec s) dummy_dev_handle_p rc' h]
    ∧ Forall (fun e => is_log e = true) logs
    ∧ (ENABLE_ASSERTIONS = true → rc = 0 ∧ rc' = 0)
    ∧ stm32image_dev_info_spec s0 = stm32image_dev_info_spec s.
Proof.
  unfold io_setup_dummy. intros Hrun.
  apply bind_returns_inv in Hrun as ([] & sa & Hprint & Hrun).
  apply bind_returns_inv in Hrun as ([] & sb & Hinfo & Hrun).
  apply bind_returns_inv in Hrun as (rc & sc & Hreg & Hrun).
  apply bind_returns_inv in Hrun as ([] & sd & Hassert & Hrun).
  pose proof (assert_returns_true _ _ _ Hassert) as Hrc.
  apply assert_returns in Hassert as ->.
  apply bind_returns_inv in Hrun as (con & ? & [= <- <-] & Hrun).
  apply bind_returns_inv in Hrun as (spec & ? & [= <- <-] & Hrun).
  apply bind_returns_inv in Hrun as (rc' & se & Hopen & Hassert).
  pose proof (assert_returns_true _ _ _ Hassert) as Hrc'.
  apply assert_returns in Hassert as ->.
  assert (Hinfo_logs :
            respects (W := W) (emitted (fun e => is_log e = true))
              (if (boot_partition_used_toboot ctx =? 1)
                  || (boot_partition_used_toboot ctx =? 2)
               then INFO "Boot used partition fsbl%d\n"
                      [ArgInt (boot_partition_used_toboot ctx)]
               else ret tt))
    by (unfold INFO; respects_tac).
  assert (Hinfo_kept :
            respects (W := W) kept_by_setup
              (if (boot_partition_used_toboot ctx =? 1)
                  || (boot_partition_used_toboot ctx =? 2)
               then INFO "Boot used partition fsbl%d\n"
                      [ArgInt (boot_partition_used_toboot ctx)]
               else ret tt))
    by (unfold INFO; respects_tac).
  assert (Hinfo_same :
            respects (W := W) same_dev_info
              (if (boot_partition_used_toboot ctx =? 1)
                  || (boot_partition_used_toboot ctx =? 2)
               then INFO "Boot used partition fsbl%d\n"
                      [ArgInt (boot_partition_used_toboot ctx)]
               else ret tt))
    by (unfold INFO; respects_tac).
  assert (Hreg_kept : respects (W := W) kept_by_setup
                        (register_io_dev_dummy dummy_dev_con_p))
    by (unfold register_io_dev_dummy; respects_tac).
  assert (Hreg_same : respects (W := W) same_dev_info
                        (register_io_dev_dummy dummy_dev_con_p))
    by (unfold register_io_dev_dummy; respects_tac).
  assert (Hopen_same : respects (W := W) same_dev_info
                         (io_dev_open (dummy_dev_con sc) (dummy_dev_spec sc)
                            dummy_dev_handle_p))
    by respects_tac.
  destruct (respects_returns _ _ _ _ _ (print_boot_device_logs ctx) Hprint)
    as (l1 & Hl1 & F1).
  destruct (respects_returns _ _ _ _ _ Hinfo_logs Hinfo) as (l2 & Hl2 & F2).
  pose proof (respects_returns _ _ _ _ _ (print_boot_device_kept ctx) Hprint)
    as (_ & Hk1 & _).
  pose proof (respects_returns _ _ _ _ _ Hinfo_kept Hinfo) as (_ & Hk2 & _).
  pose proof (respects_returns _ _ _ _ _ Hreg_kept Hreg) as (_ & Hk3 & _).
  pose proof (respects_returns _ _ _ _ _ (print_boot_device_same_dev_info ctx)
                Hprint) as Hd1.
  pose proof (respects_returns _ _ _ _ _ Hinfo_same Hinfo) as Hd2.
  pose proof (respects_returns _ _ _ _ _ Hreg_same Hreg) as Hd3.
  pose proof (respects_returns _ _ _ _ _ Hopen_same Hopen) as Hd4.
  apply register_io_dev_returns in Hreg. apply io_dev_open_returns in Hopen.
  exists (l1 ++ l2), rc, (dummy_dev_con sc), rc', (dummy_dev_handle se).
  split.
  { rewrite Hopen, Hreg, Hl2, Hl1, Hk3, Hk2, Hk1. cbn.
    by rewrite <- !app_assoc. }
  split; [by apply Forall_app |].
  split.
  { intros Hen. split; apply Z.eqb_eq; auto. }
  unfold same_dev_info in *. by rewrite Hd4, Hd3, Hd2, Hd1.
Qed.

Lemma io_setup_reg_base_returns ctx d s :
  ∃ base s',
    io_setup_reg_base ctx d s = Returns base s'
    ∧ trace s' = trace s ++ fallback_warning (boot_interface_instance ctx)
    ∧ world s' = world s
    ∧ stm32image_dev_info_spec s' = stm32image_dev_info_spec s.
Proof.
  unfold io_setup_reg_base, fallback_warning, recognized_instance, WARN.
  destruct (boot_interface_instance ctx) as [| [[p | p |] | [p | p |] |] | p];
    cbn; do 2 eexists; (split; [reflexivity |]); cbn;
    by rewrite ?app_nil_r.
Qed.

Lemma io_setup_sdmmc_shape ctx s s' :
  io_setup_sdmmc ctx s = Returns tt s' →
  ∃ params,
    trace s' = trace s ++ [Call_dmbsy]
      ++ fallback_warning (boot_interface_instance ctx)
      ++ [Call_stm32_sdmmc2_mmc_init params 0]
    ∧ stm32image_dev_info_spec s' = stm32image_dev_info_spec s.
Proof.
  unfold io_setup_sdmmc.
  set (s0 := with_trace (trace s ++ [Call_dmbsy]) s).
  assert (Hrun : ∀ A (k' : unit → M W A), bind dmbsy k' s = k' tt s0) by done.
  rewrite Hrun.
  destruct (boot_interface_selected ctx
              =? BOOT_API_CTX_BOOT_INTERFACE_SEL_FLASH_EMMC);
    match goal with
    | |- context [io_setup_reg_base ctx ?d] =>
        destruct (io_setup_reg_base_returns ctx d s0)
          as (base & s1 & Hbase & Ht1 & Hw1 & Hd1)
    end;
    rewrite (bind_run _ _ _ _ _ Hbase); unfold stm32_sdmmc2_mmc_init; cbn;
    destruct (be_stm32_sdmmc2_mmc_init _ _) as [rc w']; cbn;
    destruct (Z.eqb_spec rc 0) as [-> |]; cbn; try done;
    intros [= <-]; eexists; cbn; rewrite Ht1, Hd1; subst s0; cbn;
    by rewrite <- !app_assoc.
Qed.

Lemma io_setup_part_offsets_shape s s' :
  io_setup_part_offsets s = Returns tt s' →
  ∃ part e,
    part_info (stm32image_dev_info_spec s) !! 0%nat = Some part
    ∧ trace s' = trace s ++ [Call_get_partition_entry (name part) (Some e)]
    ∧ device_size (stm32image_dev_info_spec s')
      = device_size (stm32image_dev_info_spec s)
    ∧ lba_size (stm32image_dev_info_spec s')
      = lba_size (stm32image_dev_info_spec s).
Proof.
  unfold io_setup_part_offsets, io_setup_part_offset, get_partition_entry,
    update_part.
  cbn.
  destruct (part_info (stm32image_dev_info_spec s) !! 0%nat) as [part |] eqn:Hp;
    cbn; [| done].
  destruct (be_get_partition_entry (name part) (world s)) as [e |]; cbn;
    [| done].
  rewrite Hp. cbn.
  rewrite list_lookup_insert_eq by (by eapply lookup_lt_Some). cbn.
  intros [= <-]. by exists part, e.
Qed.

(** *** A run of setup that returns *)

Lemma stm32mp1_io_setup_returns_inv s s' :
  stm32mp1_io_setup s = Returns tt s' →
  ∃ s0 s1 s2 s3,
    io_setup_dummy (boot_context s) s = Returns tt s0
    ∧ io_setup_sdmmc (boot_context s) s0 = Returns tt s1
    ∧ io_setup_partition_table s1 = Returns tt s2
    ∧ io_setup_part_offsets s2 = Returns tt s3
    ∧ io_setup_reopen s3 = Returns tt s'.
Proof.
  intros Hrun. unfold stm32mp1_io_setup in Hrun.
  rewrite (bind_run (get boot_context) _ s (boot_context s) s eq_refl) in Hrun.
  apply bind_returns_inv in Hrun as ([] & s0 & Hdummy & Hrun).
  rewrite (io_setup_dummy_returns _ _ _ Hdummy) in Hrun.
  apply bind_returns_inv in Hrun as ([] & s1 & Hsdmmc & Hrun).
  apply bind_returns_inv in Hrun as ([] & s2 & Htable & Hrun).
  apply bind_returns_inv in Hrun as ([] & s3 & Hoffsets & Hreopen).
  by exists s0, s1, s2, s3.
Qed.

Lemma io_setup_returns_shape s s' :
  stm32mp1_io_setup s = Returns tt s' →
  ∃ logs rc0 c0 rc0' h0 params cb rco hb rcc size part e
      rcm cm rcs hs rci ci rco' hi,
    trace s' = trace s ++ logs
      ++ [Call_register_io_dev IO_DUMMY dummy_dev_con_p rc0 c0;
          Call_io_dev_open c0 (dummy_dev_spec s) dummy_dev_handle_p rc0' h0;
          Call_dmbsy]
      ++ fallback_warning (boot_interface_instance (boot_context s))
      ++ [Call_stm32_sdmmc2_mmc_init params 0;
          Call_register_io_dev IO_BLOCK mmc_dev_con_p 0 cb;
          Call_io_dev_open cb addr_mmc_block_dev_spec storage_dev_handle_p
            rco hb;
          Call_partition_init GPT_IMAGE_ID;
          Call_io_dev_close hb rcc;
          Call_stm32_sdmmc2_mmc_get_device_size size;
          Call_get_partition_entry (name part) (Some e);
          Call_register_io_dev IO_MMC mmc_dev_con_p rcm cm;
          Call_io_dev_open cm 0 storage_dev_handle_p rcs hs;
          Call_register_io_dev IO_STM32IMAGE stm32image_dev_con_p rci ci;
          Call_io_dev_open ci addr_stm32image_dev_info_spec
            image_dev_handle_p rco' hi]
    ∧ Forall (fun e => is_log e = true) logs
    ∧ part_info (stm32image_dev_info_spec s) !! 0%nat = Some part
    ∧ (ENABLE_ASSERTIONS = true →
       rc0 = 0 ∧ rc0' = 0 ∧ rco = 0 ∧ rcc = 0
       ∧ rcm = 0 ∧ rcs = 0 ∧ rci = 0 ∧ rco' = 0)
    ∧ device_size (stm32image_dev_info_spec s') = size
    ∧ lba_size (stm32image_dev_info_spec s')
      = lba_size (stm32image_dev_info_spec s).
Proof.
  intros Hrun.
  destruct (stm32mp1_io_setup_returns_inv _ _ Hrun)
    as (s0 & s1 & s2 & s3 & Hdummy & Hsdmmc & Htable & Hoffsets & Hreopen).
  destruct (io_setup_dummy_shape _ _ _ Hdummy)
    as (logs & rc0 & c0 & rc0' & h0 & Ht0 & Flogs & Hrc0 & Hd0).
  destruct (io_setup_sdmmc_shape _ _ _ Hsdmmc) as (params & Ht1 & Hd1).
  destruct (io_setup_partition_table_shape _ _ Htable)
    as (cb & rco & hb & rcc & size & Ht2 & Hrc2 & Hd2).
  destruct (io_setup_part_offsets_shape _ _ Hoffsets)
    as (part & e & Hpart & Ht3 & Hsize3 & Hlba3).
  destruct (io_setup_reopen_shape _ _ Hreopen)
    as (rcm & cm & rcs & hs & rci & ci & rco' & hi & Ht4 & Hrc4).
  pose proof (respects_returns _ _ _ _ _ io_setup_reopen_same_dev_info Hreopen)
    as Hd4.
  unfold same_dev_info in Hd4.
  exists logs, rc0, c0, rc0', h0, params, cb, rco, hb, rcc, size, part, e,
    rcm, cm, rcs, hs, rci, ci, rco', hi.
  split.
  { rewrite Ht4, Ht3, Ht2, Ht1, Ht0. rewrite <- !app_assoc. reflexivity. }
  split; [done |].
  split.
  { rewrite Hd2 in Hpart. cbn in Hpart. by rewrite <- Hd0, <- Hd1. }
  split.
  { intros Hen. destruct (Hrc0 Hen) as [-> ->].
    destruct (Hrc2 Hen) as [-> ->].
    by destruct (Hrc4 Hen) as (-> & -> & -> & ->). }
  rewrite Hd4, Hsize3, Hlba3, Hd2. cbn. by rewrite Hd1, Hd0.
Qed.

Lemma rc_passed_log e : is_log e = true → rc_passed e.
Proof. by destruct e. Qed.

(** X5: In a run of setup that returns, the driver initialization and the
    registration of the block device have answered 0; when assertions are
    compiled in, so has every other registration, every opening and the
    closing. *)
Theorem io_setup_returns_codes s s' :
  stm32mp1_io_setup s = Returns tt s' →
  ∃ evs, trace s' = trace s ++ evs ∧ Forall rc_passed evs.
Proof.
  intros Hrun.
  destruct (io_setup_returns_shape _ _ Hrun)
    as (logs & rc0 & c0 & rc0' & h0 & params & cb & rco & hb & rcc & size
        & part & e & rcm & cm & rcs & hs & rci & ci & rco' & hi
        & Ht & Flogs & _ & Hrc & _).
  eexists. split; [exact Ht |].
  assert (Hwarn : Forall rc_passed
                    (fallback_warning
                       (boot_interface_instance (boot_context s)))).
  { unfold fallback_warning. destruct (recognized_instance _);
      repeat constructor; done. }
  repeat first
    [ apply Forall_app; split
    | apply Forall_cons; split
    | apply Forall_nil ];
    try done; try (eapply Forall_impl; [exact Flogs | apply rc_passed_log]);
    (split; [cbn; congruence |]);
    intros Hen rc [= <-]; destruct (Hrc Hen) as (? & ? & ? & ? & ? & ? & ? & ?);
    done.
Qed.

(** X7: A run of setup that returns has stored in the device information the
    size the driver reported, and has left its block size as it was. *)
Theorem io_setup_device_size s s' :
  stm32mp1_io_setup s = Returns tt s' →
  ∃ size evs,
    trace s' = trace s ++ evs
    ∧ Call_stm32_sdmmc2_mmc_get_device_size size ∈ evs
    ∧ device_size (stm32image_dev_info_spec s') = size
    ∧ lba_size (stm32image_dev_info_spec s')
      = lba_size (stm32image_dev_info_spec s).
Proof.
  intros Hrun.
  destruct (io_setup_returns_shape _ _ Hrun)
    as (logs & rc0 & c0 & rc0' & h0 & params & cb & rco & hb & rcc & size
        & part & e & rcm & cm & rcs & hs & rci & ci & rco' & hi
        & Ht & _ & _ & _ & Hsize & Hlba).
  exists size. eexists. split; [exact Ht |]. split; [| done].
  rewrite !elem_of_app. right. right. right. set_solver.
Qed.

(** *** A run of setup that halts *)

Lemma halt_intro s s' h pre e :
  trace s' = pre ++ [e] → (∃ evs, pre = trace s ++ evs) → halt_cause h e →
  ∃ evs e', trace s' = trace s ++ evs ++ [e'] ∧ halt_cause h e'.
Proof.
  intros Ht [evs ->] Hc. exists evs, e. by rewrite Ht, <- app_assoc.
Qed.

Lemma halt_later s s1 s' h :
  emitted (fun _ => True) s s1 →
  (∃ evs e, trace s' = trace s1 ++ evs ++ [e] ∧ halt_cause h e) →
  ∃ evs e, trace s' = trace s ++ evs ++ [e] ∧ halt_cause h e.
Proof.
  intros (evs0 & Ht0 & _) (evs & e & Ht & Hc).
  exists (evs0 ++ evs), e. by rewrite Ht, Ht0, <- !app_assoc.
Qed.

(** Closes a branch of a block that has halted: the last event, the events
    before it, and why the event makes the block halt. *)
Ltac halt_tac :=
  intros [= <- <-]; rc_facts;
  eapply halt_intro;
    [ cbn; reflexivity
    | first [ by exists []; rewrite app_nil_r
            | rewrite <- ?app_assoc; eexists; reflexivity ]
    | cbn;
      first [ by right; right; right; do 2 eexists
            | by split; [| eexists; split; [reflexivity |]] ] ].

Lemma io_setup_partition_table_halts s h s' :
  io_setup_partition_table s = Halts h s' →
  ∃ evs e, trace s' = trace s ++ evs ++ [e] ∧ halt_cause h e.
Proof.
  unfold io_setup_partition_table, register_io_dev_block, register_io_dev,
    io_dev_open, partition_init, io_dev_close,
    stm32_sdmmc2_mmc_get_device_size, assert, panic.
  run_calls_eqn; try done; halt_tac.
Qed.

Lemma io_setup_reopen_halts s h s' :
  io_setup_reopen s = Halts h s' →
  ∃ evs e, trace s' = trace s ++ evs ++ [e] ∧ halt_cause h e.
Proof.
  unfold io_setup_reopen, register_io_dev_mmc, register_io_dev_stm32image,
    register_io_dev, io_dev_open, assert.
  run_calls_eqn; try done; halt_tac.
Qed.

Lemma io_setup_dummy_halts ctx s h s' :
  io_setup_dummy ctx s = Halts h s' →
  ∃ evs e, trace s' = trace s ++ evs ++ [e] ∧ halt_cause h e.
Proof.
  unfold io_setup_dummy. intros Hrun.
  apply bind_halts_inv in Hrun as [Hprint | ([] & sa & Hprint & Hrun)].
  { apply print_boot_device_halts in Hprint as [-> Ht].
    exists [], (Log LOG_ERROR "Boot interface not found\n" []).
    split; [done | by left]. }
  assert (Ha : emitted (fun _ => True) s sa).
  { eapply (respects_returns _ (print_boot_device ctx)); [| exact Hprint].
    unfold print_boot_device, INFO, ERROR. respects_tac. }
  apply (halt_later _ _ _ _ Ha). clear Ha Hprint.
  apply bind_halts_inv in Hrun as [Hinfo | ([] & sb & Hinfo & Hrun)].
  { unfold INFO in Hinfo. by destruct (_ || _). }
  assert (Hb : emitted (fun _ => True) sa sb).
  { eapply respects_returns; [| exact Hinfo]. unfold INFO. respects_tac. }
  apply (halt_later _ _ _ _ Hb). clear Hb Hinfo.
  apply bind_halts_inv in Hrun as [Hreg | (rc & sc & Hreg & Hrun)].
  { by apply register_io_dev_halts in Hreg. }
  apply register_io_dev_returns in Hreg.
  apply bind_halts_inv in Hrun as [Hassert | ([] & sd & Hassert & Hrun)].
  { apply assert_halts in Hassert as (-> & -> & Hen & Hrc).
    apply Z.eqb_neq in Hrc. eexists [], _. split; [exact Hreg |].
    cbn. eauto. }
  apply assert_returns in Hassert as ->.
  apply bind_halts_inv in Hrun as [[=] | (con & ? & [= <- <-] & Hrun)].
  apply bind_halts_inv in Hrun as [[=] | (spec & ? & [= <- <-] & Hrun)].
  apply bind_halts_inv in Hrun as [Hopen | (rc' & se & Hopen & Hassert)].
  { by apply io_dev_open_halts in Hopen. }
  apply io_dev_open_returns in Hopen.
  apply assert_halts in Hassert as (-> & -> & Hen & Hrc).
  apply Z.eqb_neq in Hrc. eexists [_], _.
  split; [by rewrite Hopen, Hreg, <- app_assoc |].
  cbn. eauto.
Qed.

Lemma io_setup_sdmmc_halts ctx s h s' :
  io_setup_sdmmc ctx s = Halts h s' →
  ∃ evs e, trace s' = trace s ++ evs ++ [e] ∧ halt_cause h e.
Proof.
  unfold io_setup_sdmmc.
  set (s0 := with_trace (trace s ++ [Call_dmbsy]) s).
  assert (Hrun : ∀ A (k' : unit → M W A), bind dmbsy k' s = k' tt s0) by done.
  rewrite Hrun.
  destruct (boot_interface_selected ctx
              =? BOOT_API_CTX_BOOT_INTERFACE_SEL_FLASH_EMMC);
    match goal with
    | |- context [io_setup_reg_base ctx ?d] =>
        destruct (io_setup_reg_base_returns ctx d s0)
          as (base & s1 & Hbase & Ht1 & Hw1 & Hd1)
    end;
    rewrite (bind_run _ _ _ _ _ Hbase); unfold stm32_sdmmc2_mmc_init; cbn;
    destruct (be_stm32_sdmmc2_mmc_init _ _) as [rc w']; cbn;
    destruct (Z.eqb_spec rc 0) as [-> |]; cbn; try done;
    intros [= <- <-]; cbn; rewrite Ht1; subst s0; cbn;
    (eexists ([Call_dmbsy]
                ++ fallback_warning (boot_interface_instance ctx) ++ [_]), _;
     split; [rewrite <- !app_assoc; reflexivity | right; left; eauto]).
Qed.

Lemma io_setup_part_offsets_halts s h s' part :
  part_info (stm32image_dev_info_spec s) !! 0%nat = Some part →
  io_setup_part_offsets s = Halts h s' →
  ∃ evs e, trace s' = trace s ++ evs ++ [e] ∧ halt_cause h e.
Proof.
  intros Hp.
  unfold io_setup_part_offsets, io_setup_part_offset, get_partition_entry,
    update_part.
  cbn. rewrite Hp. cbn.
  destruct (be_get_partition_entry (name part) (world s)) as [e |]; cbn.
  - rewrite Hp. cbn.
    by rewrite list_lookup_insert_eq by (by eapply lookup_lt_Some).
  - intros [= <- <-]. cbn. eexists [_], _.
    split; [by rewrite <- app_assoc |]. right. right. left. eauto.
Qed.

(** X4: When setup halts it has just logged or made the call that explains
    it.  A [panic()] follows the message that the boot interface was not
    found, that the driver initialization failed or that a partition was
    not found, or else a failed registration of the block device, which
    has no message.  A failed assertion follows a registration, an opening
    or a closing that answered other than 0, and only when assertions are
    compiled in.  With at least [IMG_IDX_NUM] named images in the device
    information, setup never runs into undefined behaviour. *)
Theorem io_setup_halt_cause s h s' :
  (IMG_IDX_NUM ≤ length (part_info (stm32image_dev_info_spec s)))%nat →
  stm32mp1_io_setup s = Halts h s' →
  ∃ evs e, trace s' = trace s ++ evs ++ [e] ∧ halt_cause h e.
Proof.
  intros Hlen Hrun. unfold stm32mp1_io_setup in Hrun.
  rewrite (bind_run (get boot_context) _ s (boot_context s) s eq_refl) in Hrun.
  apply bind_halts_inv in Hrun as [Hdummy | ([] & s0 & Hdummy & Hrun)];
    [by eapply io_setup_dummy_halts |].
  rewrite (io_setup_dummy_returns _ _ _ Hdummy) in Hrun.
  destruct (io_setup_dummy_shape _ _ _ Hdummy)
    as (logs & rc0 & c0 & rc0' & h0 & Ht0 & _ & _ & Hd0).
  assert (H0 : emitted (fun _ => True) s s0).
  { eexists. split; [exact Ht0 | by apply Forall_true]. }
  apply (halt_later _ _ _ _ H0). clear H0 Ht0.
  apply bind_halts_inv in Hrun as [Hsdmmc | ([] & s1 & Hsdmmc & Hrun)];
    [by eapply io_setup_sdmmc_halts |].
  destruct (io_setup_sdmmc_shape _ _ _ Hsdmmc) as (params & Ht1 & Hd1).
  assert (H1 : emitted (fun _ => True) s0 s1).
  { eexists. split; [exact Ht1 | by apply Forall_true]. }
  apply (halt_later _ _ _ _ H1). clear H1 Ht1.
  apply bind_halts_inv in Hrun as [Htable | ([] & s2 & Htable & Hrun)];
    [by eapply io_setup_partition_table_halts |].
  destruct (io_setup_partition_table_shape _ _ Htable)
    as (cb & rco & hb & rcc & size & Ht2 & _ & Hd2).
  assert (H2 : emitted (fun _ => True) s1 s2).
  { eexists. split; [exact Ht2 | by apply Forall_true]. }
  apply (halt_later _ _ _ _ H2). clear H2 Ht2.
  assert (Hpart : is_Some (part_info (stm32image_dev_info_spec s2) !! 0%nat)).
  { rewrite Hd2, Hd1, Hd0. cbn. apply lookup_lt_is_Some.
    unfold IMG_IDX_NUM in Hlen. lia. }
  destruct Hpart as [part Hpart].
  apply bind_halts_inv in Hrun as [Hoffsets | ([] & s3 & Hoffsets & Hreopen)];
    [by eapply io_setup_part_offsets_halts |].
  assert (H3 : emitted (fun _ => True) s2 s3)
    by exact (respects_returns _ _ _ _ _ io_setup_part_offsets_grows Hoffsets).
  apply (halt_later _ _ _ _ H3).
  by eapply io_setup_reopen_halts.
Qed.

End SetupMore.

(** ** More runs on the simulated card *)

Section RunsMore.

Local Existing Instance sim_backend.
Local Existing Instance sim_platform.

Lemma plat_get_image_source_hole_witness :
  (0 < length (policies (W := sim_world)))%nat
  ∧ plat_get_image_source 0 0x100 0x108 sim_ready = Halts Undefined sim_ready.
Proof.
  assert (H0 : (0 < length (policies (W := sim_world)))%nat)
    by (vm_compute; lia).
  split; [exact H0 |].
  apply (plat_get_image_source_hole 0 0x100 0x108 sim_ready H0);
    discriminate.
Defined.

Lemma plat_get_image_source_outputs_witness :
  open_dummy (image_spec sim_bl2_policy) sim_ready
  = Returns 0 (final_state (open_dummy 0 sim_ready))
  ∧ ∃ slot s',
      dev_handle sim_bl2_policy = Some slot
      ∧ plat_get_image_source 1 0x100 0x100 sim_ready = Returns 0 s'
      ∧ caller_mem s' !! 0x100 = Some (load_handle slot sim_ready)
      ∧ (0x100 ≠ 0x100 →
         caller_mem s' !! 0x100 = Some (image_spec sim_bl2_policy))
      ∧ (0x100 = 0x100 →
         caller_mem s' !! 0x100 = Some (load_handle slot sim_ready)).
Proof.
  assert (H1 : policies !! 1%nat = Some sim_bl2_policy)
    by (vm_compute; reflexivity).
  assert (H3 : open_dummy (image_spec sim_bl2_policy) sim_ready
               = Returns 0 (final_state (open_dummy 0 sim_ready)))
    by (vm_compute; reflexivity).
  split; [exact H3 |].
  exact (plat_get_image_source_outputs 1 sim_bl2_policy open_dummy sim_ready
           _ 0x100 0x100 H1 eq_refl H3).
Defined.

Lemma print_boot_device_recognized_witness :
  interface_kind_of (boot_interface_selected (boot_context sim_emmc7))
  = Some EMMC
  ∧ ∃ s', print_boot_device (boot_context sim_emmc7) sim_emmc7
          = Returns tt s'
      ∧ trace s' = trace sim_emmc7
          ++ [Log LOG_INFO "Using EMMC\n" []]
          ++ (if boot_interface_instance (boot_context sim_emmc7) =? 0
              then []
              else [Log LOG_INFO "  Instance %d\n"
                      [ArgInt (boot_interface_instance
                                 (boot_context sim_emmc7))]])
      ∧ same_variables sim_emmc7 s'.
Proof.
  assert (H1 : interface_kind_of
                 (boot_interface_selected (boot_context sim_emmc7))
               = Some EMMC) by reflexivity.
  split; [exact H1 |].
  exact (print_boot_device_recognized (boot_context sim_emmc7) EMMC sim_emmc7
           H1).
Defined.

(** The driver initialization answers -5. *)
Lemma io_setup_sdmmc_init_failure_witness :
  ∃ s', stm32mp1_io_setup (B := sim_faulty (-5) 0 0) sim_emmc2
        = Halts Panic s'
    ∧ world s'
      = world (final_state
                 (io_setup_dummy (B := sim_faulty (-5) 0 0)
                    (boot_context sim_emmc2) sim_emmc2))
    ∧ trace s'
      = trace (final_state
                 (io_setup_dummy (B := sim_faulty (-5) 0 0)
                    (boot_context sim_emmc2) sim_emmc2))
        ++ [Call_dmbsy]
        ++ fallback_warning (boot_interface_instance (boot_context sim_emmc2))
        ++ [Call_stm32_sdmmc2_mmc_init
              {| reg_base :=
                   documented_reg_base EMMC
                     (boot_interface_instance (boot_context sim_emmc2));
                 device_info :=
                   {| mmc_dev_type := documented_dev_type EMMC |} |} (-5);
            Log LOG_ERROR "SDMMC%u init failed\n"
              [ArgInt (boot_interface_instance (boot_context sim_emmc2))]].
Proof.
  assert (H1 : @BOOT_API_CTX_BOOT_INTERFACE_SEL_FLASH_SD sim_platform
               ≠ @BOOT_API_CTX_BOOT_INTERFACE_SEL_FLASH_EMMC sim_platform)
    by discriminate.
  assert (H2 : interface_kind_of
                 (boot_interface_selected (boot_context sim_emmc2))
               = Some EMMC) by reflexivity.
  assert (H3 : io_setup_dummy (B := sim_faulty (-5) 0 0)
                 (boot_context sim_emmc2) sim_emmc2
               = Returns tt
                   (final_state
                      (io_setup_dummy (B := sim_faulty (-5) 0 0)
                         (boot_context sim_emmc2) sim_emmc2)))
    by (vm_compute; reflexivity).
  assert (H5 : -5 ≠ 0) by discriminate.
  exact (io_setup_sdmmc_init_failure (B := sim_faulty (-5) 0 0) sim_emmc2 _
           EMMC (-5) _ H1 H2 H3 eq_refl H5).
Defined.

Lemma io_setup_returns_codes_witness :
  stm32mp1_io_setup sim_sd1 = Returns tt sim_ready
  ∧ ∃ evs, trace sim_ready = trace sim_sd1 ++ evs ∧ Forall rc_passed evs.
Proof.
  assert (H1 : stm32mp1_io_setup sim_sd1 = Returns tt sim_ready)
    by (vm_compute; reflexivity).
  split; [exact H1 |].
  exact (io_setup_returns_codes sim_sd1 sim_ready H1).
Defined.

Lemma io_setup_device_size_witness :
  stm32mp1_io_setup sim_sd1 = Returns tt sim_ready
  ∧ ∃ size evs,
      trace sim_ready = trace sim_sd1 ++ evs
      ∧ Call_stm32_sdmmc2_mmc_get_device_size size ∈ evs
      ∧ device_size (stm32image_dev_info_spec sim_ready) = size
      ∧ lba_size (stm32image_dev_info_spec sim_ready)
        = lba_size (stm32image_dev_info_spec sim_sd1).
Proof.
  assert (H1 : stm32mp1_io_setup sim_sd1 = Returns tt sim_ready)
    by (vm_compute; reflexivity).
  split; [exact H1 |].
  exact (io_setup_device_size sim_sd1 sim_ready H1).
Defined.

(** The registration of the block device answers -12: setup halts on
    [panic] with that call as its last event. *)
Lemma io_setup_halt_cause_witness :
  stm32mp1_io_setup (B := sim_faulty 0 (-12) 0) sim_sd1
  = Halts Panic
      (final_state (stm32mp1_io_setup (B := sim_faulty 0 (-12) 0) sim_sd1))
  ∧ last (trace (final_state
                   (stm32mp1_io_setup (B := sim_faulty 0 (-12) 0) sim_sd1)))
    = Some (Call_register_io_dev IO_BLOCK mmc_dev_con_p (-12) 0x200)
  ∧ ∃ evs e,
      trace (final_state
               (stm32mp1_io_setup (B := sim_faulty 0 (-12) 0) sim_sd1))
      = trace sim_sd1 ++ evs ++ [e]
      ∧ halt_cause Panic e.
Proof.
  assert (H1 : (IMG_IDX_NUM
                ≤ length (part_info (stm32image_dev_info_spec sim_sd1)))%nat)
    by (vm_compute; lia).
  assert (H2 : stm32mp1_io_setup (B := sim_faulty 0 (-12) 0) sim_sd1
               = Halts Panic
                   (final_state
                      (stm32mp1_io_setup (B := sim_faulty 0 (-12) 0)
                         sim_sd1)))
    by (vm_compute; reflexivity).
  split; [exact H2 |].
  split; [by vm_compute |].
  exact (io_setup_halt_cause (B := sim_faulty 0 (-12) 0) sim_sd1 Panic _
           H1 H2).
Defined.

Lemma plat_get_image_source_stable_witness :
  plat_get_image_source 1 0x100 0x108 sim_ready
  = Returns 0 (final_state (plat_get_image_source 1 0x100 0x108 sim_ready))
  ∧ caller_mem
      (final_state
         (plat_get_image_source 1 0x200 0x208
            (final_state (plat_get_image_source 1 0x100 0x108 sim_ready))))
      !! 0x200
    = caller_mem
        (final_state (plat_get_image_source 1 0x100 0x108 sim_ready))
        !! 0x100
  ∧ (0x108 ≠ 0x100 → 0x208 ≠ 0x200 →
     caller_mem
       (final_state
          (plat_get_image_source 1 0x200 0x208
             (final_state (plat_get_image_source 1 0x100 0x108 sim_ready))))
       !! 0x208
     = caller_mem
         (final_state (plat_get_image_source 1 0x100 0x108 sim_ready))
         !! 0x108).
Proof.
  assert (H1 : plat_get_image_source 1 0x100 0x108 sim_ready
               = Returns 0
                   (final_state
                      (plat_get_image_source 1 0x100 0x108 sim_ready)))
    by (vm_compute; reflexivity).
  assert (H2 : plat_get_image_source 1 0x200 0x208
                 (final_state
                    (plat_get_image_source 1 0x100 0x108 sim_ready))
               = Returns 0
                   (final_state
                      (plat_get_image_source 1 0x200 0x208
                         (final_state
                            (plat_get_image_source 1 0x100 0x108
                               sim_ready)))))
    by (vm_compute; reflexivity).
  split; [exact H1 |].
  exact (plat_get_image_source_stable 1 0x100 0x108 0x200 0x208 sim_ready
           _ _ H1 H2).
Defined.

End RunsMore.
